(** * python-lkvm: the command client of [lkvm.py]

    A shallow embedding of [Client] from [python_lkvm/lkvm.py]: the
    construction of argument vectors, the execution primitive
    [_execute], and the parsing of the [lkvm list] output.

    Conventions.
    - Python values that reach the client are scalars; they are the
      type [value].  Strings are byte strings (the module is written
      for Python 2 [str], which is what [communicate] returns and what
      [split] is applied to).
    - A method is a computation in the monad [M]: it returns a value or
      raises an exception, and leaves a trace of the calls it made to
      [_execute] and to [subprocess.Popen].
    - Everything outside the module (the effective uid, the outcome of
      the spawned process, the process table read by [psutil]) is a
      field of the record [Env]. *)

From Stdlib Require Import ZArith String Ascii List Bool Lia.
From stdpp Require Import base list strings gmap pretty.

Import ListNotations.
Local Open Scope string_scope.
Local Open Scope list_scope.

(** ** Python values *)

Inductive value : Type :=
  | VNone
  | VBool (b : bool)
  | VInt (n : Z)
  | VStr (s : string).

Definition value_eqb (a b : value) : bool :=
  match a, b with
  | VNone, VNone => true
  | VBool x, VBool y => Bool.eqb x y
  | VInt x, VInt y => Z.eqb x y
  | VStr x, VStr y => String.eqb x y
  | VBool x, VInt y | VInt y, VBool x => Z.eqb (if x then 1 else 0) y
  | _, _ => false
  end.

(** [bool(v)]: what [if v:] tests. *)
Definition truthy (v : value) : bool :=
  match v with
  | VNone => false
  | VBool b => b
  | VInt n => negb (Z.eqb n 0)
  | VStr s => negb (String.eqb s "")
  end.

(** [str(v)]. *)
Definition str (v : value) : string :=
  match v with
  | VNone => "None"
  | VBool true => "True"
  | VBool false => "False"
  | VInt n => pretty n
  | VStr s => s
  end.

(** [v in l] for a list literal [l]: equality with some element. *)
Definition py_in (v : value) (l : list value) : bool :=
  existsb (value_eqb v) l.

(** ** Strings *)

Definition newline : ascii := "010"%char.

(** The bytes [str.split()] treats as separators. *)
Definition is_ws (c : ascii) : bool :=
  match nat_of_ascii c with
  | 9 | 10 | 11 | 12 | 13 | 32 => true
  | _ => false
  end.

(** [s.split('\n')]. *)
Fixpoint split_nl (s : string) : list string :=
  match s with
  | EmptyString => [EmptyString]
  | String c s' =>
      if Ascii.eqb c newline then EmptyString :: split_nl s'
      else match split_nl s' with
           | w :: ws => String c w :: ws
           | [] => [String c EmptyString]
           end
  end.

(** [s.split()]: maximal runs of non-blank bytes. *)
Fixpoint split_ws (s : string) : list string :=
  match s with
  | EmptyString => []
  | String c s' =>
      if is_ws c then split_ws s'
      else match s' with
           | EmptyString => [String c EmptyString]
           | String c' _ =>
               if is_ws c' then String c EmptyString :: split_ws s'
               else match split_ws s' with
                    | w :: ws => String c w :: ws
                    | [] => [String c EmptyString]
                    end
           end
  end.

(** [sep.join(l)]. *)
Fixpoint join (sep : string) (l : list string) : string :=
  match l with
  | [] => EmptyString
  | [x] => x
  | x :: rest => x ++ sep ++ join sep rest
  end.

(** [s[2:]]. *)
Definition drop2 (s : string) : string :=
  match s with
  | String _ (String _ r) => r
  | _ => EmptyString
  end.

Definition is_digit (c : ascii) : bool :=
  let n := nat_of_ascii c in (48 <=? n)%nat && (n <=? 57)%nat.

Fixpoint digits_value (acc : Z) (s : string) : option Z :=
  match s with
  | EmptyString => Some acc
  | String c s' =>
      if is_digit c
      then digits_value (10 * acc + Z.of_nat (nat_of_ascii c - 48)) s'
      else None
  end.

(** [int(s)] on a field produced by [split()]: an optional sign and at
    least one decimal digit; [None] stands for [ValueError]. *)
Definition py_int (s : string) : option Z :=
  match s with
  | EmptyString => None
  | String "-" (String c r) => Z.opp <$> digits_value 0 (String c r)
  | String "+" (String c r) => digits_value 0 (String c r)
  | _ => digits_value 0 s
  end.

(** ** Exceptions, traces and the method monad *)

Inductive exn : Type :=
  | LKVMException (msg : string)
  | NameError (name : string)
  | UnboundLocalError (name : string)
  | IndexError
  | ValueError
  | OSError (description : string).

Inductive result (A : Type) : Type :=
  | Ok (a : A)
  | Raise (e : exn).
Arguments Ok {A} a.
Arguments Raise {A} e.

(** What a method does to the outside, in order. [Ev_execute] is a
    marker of the model: it records that [_execute] was entered, which
    by itself has no effect outside. *)
Inductive event : Type :=
  | Ev_execute (cmd : string) (args : list value) (background : bool)
      (* [self._execute(cmd, args, background=...)] was entered *)
  | Ev_popen (command : list string)
      (* [subprocess.Popen(command, stdin=PIPE, stdout=PIPE, stderr=PIPE)] *)
  | Ev_popen_shell (command : string).
      (* [subprocess.Popen(command, shell=True)] *)

Definition M (A : Type) : Type := (result A * list event)%type.

Definition ret {A} (a : A) : M A := (Ok a, []).
Definition raise {A} (e : exn) : M A := (Raise e, []).
Definition emit (ev : event) : M unit := (Ok tt, [ev]).
Definition lift {A} (r : result A) : M A := (r, []).

Definition bind {A B} (m : M A) (k : A -> M B) : M B :=
  match m with
  | (Ok a, t) => let (r, t') := k a in (r, t ++ t')
  | (Raise e, t) => (Raise e, t)
  end.

Notation "'let*' x ':=' m 'in' k" := (bind m (fun x => k))
  (at level 10, x name, m at level 100, k at level 200).
Notation "'do*' m 'in' k" := (bind m (fun _ => k))
  (at level 10, m at level 100, k at level 200).

Definition outcome {A} (m : M A) : result A := fst m.
Definition trace {A} (m : M A) : list event := snd m.

(** [for x in l: body], collecting what [body] appends. *)
Fixpoint for_each {A B} (body : A -> M B) (l : list A) : M (list B) :=
  match l with
  | [] => ret []
  | x :: rest =>
      let* y := body x in
      let* ys := for_each body rest in
      ret (y :: ys)
  end.

(** An event is a process creation. *)
Definition is_spawn (ev : event) : bool :=
  match ev with
  | Ev_execute _ _ _ => false
  | Ev_popen _ | Ev_popen_shell _ => true
  end.

Definition is_execute (ev : event) : bool :=
  match ev with
  | Ev_execute _ _ _ => true
  | _ => false
  end.

(** ** The module's global names

    The names bound at module level by lines 21-41 of [lkvm.py]
    (imports, constants and classes).  A name that is neither here nor
    a builtin raises [NameError] when it is evaluated. *)

Definition module_globals : list string :=
  ["logging"; "os"; "psutil"; "six"; "subprocess"; "sys";
   "LKVM_PATH"; "LOG"; "LKVMException"; "LKVMInstance"; "Client"].

Definition load_global (name : string) : result unit :=
  if existsb (String.eqb name) module_globals then Ok tt
  else Raise (NameError name).

Definition LKVM_PATH : string := "/usr/bin/lkvm".

(** ** The environment *)

(** What happens to a foreground [Popen] and its [communicate()]. *)
Inductive popen_outcome : Type :=
  | SpawnError (description : string)   (* [Popen] raised [OSError] *)
  | CommError (description : string)    (* [communicate] raised [OSError] *)
  | Completed (stdout stderr : string). (* [communicate] returned *)

Record Env : Type := {
  (* [os.geteuid()], [None] where [os] has no [geteuid] *)
  geteuid : option Z;
  (* the process spawned with pipes, by argument vector *)
  popen : list string -> popen_outcome;
  (* the detached shell process: [Some d] when [Popen] raises [OSError] *)
  popen_shell : string -> option string;
  (* [psutil.Process(pid).cmdline()]; [None] when it raises *)
  cmdline : Z -> option (list string)
}.

Record Client : Type := { _root_helper : value }.

(** ** List mutation *)

(** [l.extend(xs)] and [l.append(x)], as the new contents of [l]. *)
Definition extend {A} (l xs : list A) : list A := l ++ xs.
Definition append {A} (l : list A) (x : A) : list A := l ++ [x].

(** ** [Client._execute] (lines 66-110) *)

Definition unprivileged (env : Env) (self : Client) : bool :=
  match geteuid env with
  | Some uid => negb (Z.eqb uid 0) && negb (truthy (_root_helper self))
  | None => false
  end.

(** Lines 79-85: the list [command] before it is run. *)
Definition command_of (self : Client) (cmd : string) (args : list value)
    : list string :=
  let command := [VStr LKVM_PATH] in
  let command :=
    if truthy (_root_helper self) then [_root_helper self] ++ command
    else command in
  let command := append command (VStr cmd) in
  let command := extend command args in
  map str command.

Definition _execute (env : Env) (self : Client)
    (cmd : string) (args : list value) (background : bool) : M value :=
  do* emit (Ev_execute cmd args background) in
  if unprivileged env self then ret VNone
  else
    let command := command_of self cmd args in
    if background then
      let command := "nohup" :: command in
      let command := (join " " command ++ " >/dev/null 2>&1")%string in
      do* emit (Ev_popen_shell command) in
      match popen_shell env command with
      | Some d => raise (OSError d)
      | None => ret VNone
      end
    else
      do* emit (Ev_popen command) in
      match popen env command with
      | SpawnError d => raise (OSError d)
      | CommError d =>
          (* [except OSError as err: if isinstance(err, ProcessExecutionError)]:
             the name is evaluated first; were it bound, control would
             reach [result[1]] with [result] never assigned *)
          do* lift (load_global "ProcessExecutionError") in
          raise (UnboundLocalError "result")
      | Completed out err =>
          if truthy (VStr err) then raise (LKVMException err)
          else ret (VStr out)
      end.

(** ** Indexing *)

(** [l[i]] for [i >= 0]. *)
Definition getitem {A} (l : list A) (i : nat) : result A :=
  match l !! i with
  | Some x => Ok x
  | None => Raise IndexError
  end.

(** [range(0, n, 2)]. *)
Definition range_step2 (n : nat) : list nat :=
  map (fun k => 2 * k)%nat (seq 0 (Nat.div2 (n + 1))).

(** [l[2:-1]]. *)
Definition slice_2_m1 {A} (l : list A) : list A :=
  take (length l - 3) (drop 2 l).

Definition dquote : ascii := "034"%char.

(** ['"%s"' % v]. *)
Definition quoted (v : value) : string :=
  String dquote (str v ++ String dquote EmptyString).

(** ** The arguments of [run] and [sandbox] (lines 112-117, 373-378) *)

Module Cfg.
Record t : Type := {
  cpus : value; mem : value; shmem : value; console : value;
  kernel : value; params : value; network : value;
  name : value; disk : value; balloon : value;
  vnc : value; gtk : value; sdl : value; rng : value;
  plan9 : value; dev : value; tty : value; sandbox : value;
  hugetlbs : value; initrd : value; firmware : value;
  no_dhcp : value
}.
End Cfg.

(** ** [Client.run] (lines 167-220) *)

(** The list [_params] when line 220 is reached. *)
Definition run_params (c : Cfg.t) : list value :=
  let _params := [] in
  let _params := extend _params [VStr "--cpus"; Cfg.cpus c;
                                 VStr "--mem"; Cfg.mem c;
                                 VStr "--shmem"; Cfg.shmem c] in
  let _params := if truthy (Cfg.name c)
                 then extend _params [VStr "--name"; Cfg.name c] else _params in
  let _params := if py_in (Cfg.console c) [VStr "serial"; VStr "virtio"; VStr "hv"]
                 then extend _params [VStr "--console"; Cfg.console c] else _params in
  let _params := if truthy (Cfg.balloon c)
                 then append _params (VStr "--balloon") else _params in
  let _params := if truthy (Cfg.vnc c)
                 then append _params (VStr "--vnc") else _params in
  let _params := if truthy (Cfg.gtk c)
                 then append _params (VStr "--gtk") else _params in
  let _params := if truthy (Cfg.sdl c)
                 then append _params (VStr "--sdl") else _params in
  let _params := if truthy (Cfg.rng c)
                 then append _params (VStr "--rng") else _params in
  let _params := if truthy (Cfg.plan9 c)
                 then append _params (VStr "--9p") else _params in
  let _params := if truthy (Cfg.disk c)
                 then extend _params [VStr "--disk"; Cfg.disk c] else _params in
  let _params := if truthy (Cfg.dev c)
                 then extend _params [VStr "--dev"; Cfg.dev c] else _params in
  let _params := if truthy (Cfg.tty c)
                 then extend _params [VStr "--tty"; Cfg.tty c] else _params in
  let _params := if truthy (Cfg.sandbox c)
                 then extend _params [VStr "--sandbox"; Cfg.sandbox c] else _params in
  let _params := if truthy (Cfg.hugetlbs c)
                 then extend _params [VStr "--hugetlbs"; Cfg.hugetlbs c] else _params in
  let _params := extend _params [VStr "--kernel"; Cfg.kernel c;
                                 VStr "--params"; VStr (quoted (Cfg.params c))] in
  let _params := if truthy (Cfg.initrd c)
                 then extend _params [VStr "--initrd"; Cfg.initrd c] else _params in
  let _params := if truthy (Cfg.firmware c)
                 then extend _params [VStr "--firmware"; Cfg.firmware c] else _params in
  let _params := extend _params [VStr "--network"; Cfg.network c] in
  let _params := if truthy (Cfg.no_dhcp c)
                 then append _params (VStr "--no-dhcp") else _params in
  _params.

Definition run (env : Env) (self : Client) (c : Cfg.t) : M value :=
  do* _execute env self "run" (run_params c) true in
  ret VNone.

(** ** [Client.sandbox] (lines 428-481) *)

(** The list [_params] when line 481 is reached. *)
Definition sandbox_params (c : Cfg.t) : list value :=
  let _params := [] in
  let _params := extend _params [VStr "--cpus"; Cfg.cpus c;
                                 VStr "--mem"; Cfg.mem c;
                                 VStr "--shmem"; Cfg.shmem c] in
  let _params := if truthy (Cfg.name c)
                 then extend _params [VStr "--name"; Cfg.name c] else _params in
  let _params := if py_in (Cfg.console c) [VStr "serial"; VStr "virtio"; VStr "hv"]
                 then extend _params [VStr "--console"; Cfg.console c] else _params in
  let _params := if truthy (Cfg.balloon c)
                 then append _params (VStr "--balloon") else _params in
  let _params := if truthy (Cfg.vnc c)
                 then append _params (VStr "--vnc") else _params in
  let _params := if truthy (Cfg.gtk c)
                 then append _params (VStr "--gtk") else _params in
  let _params := if truthy (Cfg.sdl c)
                 then append _params (VStr "--sdl") else _params in
  let _params := if truthy (Cfg.rng c)
                 then append _params (VStr "--rng") else _params in
  let _params := if truthy (Cfg.plan9 c)
                 then append _params (VStr "--9p") else _params in
  let _params := if truthy (Cfg.disk c)
                 then extend _params [VStr "--disk"; Cfg.disk c] else _params in
  let _params := if truthy (Cfg.dev c)
                 then extend _params [VStr "--dev"; Cfg.dev c] else _params in
  let _params := if truthy (Cfg.tty c)
                 then extend _params [VStr "--tty"; Cfg.tty c] else _params in
  let _params := if truthy (Cfg.sandbox c)
                 then extend _params [VStr "--sandbox"; Cfg.sandbox c] else _params in
  let _params := if truthy (Cfg.hugetlbs c)
                 then extend _params [VStr "--hugetlbs"; Cfg.hugetlbs c] else _params in
  let _params := extend _params [VStr "--kernel"; Cfg.kernel c;
                                 VStr "--params"; VStr (quoted (Cfg.params c))] in
  let _params := if truthy (Cfg.initrd c)
                 then extend _params [VStr "--initrd"; Cfg.initrd c] else _params in
  let _params := if truthy (Cfg.firmware c)
                 then extend _params [VStr "--firmware"; Cfg.firmware c] else _params in
  let _params := extend _params [VStr "--network"; Cfg.network c] in
  let _params := if truthy (Cfg.no_dhcp c)
                 then append _params (VStr "--no-dhcp") else _params in
  _params.

Definition sandbox (env : Env) (self : Client) (c : Cfg.t) : M value :=
  do* _execute env self "sandbox" (sandbox_params c) true in
  ret VNone.

(** ** [setup], [pause], [resume], [stop], [balloon], [stat] *)

Definition setup (env : Env) (self : Client) (name : value) : M value :=
  let params := [VStr "--name"; name] in
  _execute env self "setup" params false.

(** The shared selector of [pause], [resume] and [stop]: the list
    [params] after the [if all / elif name / else: return] statement,
    [None] when the method returns there. *)
Definition selector (all name : value) : option (list value) :=
  let params := [] in
  if truthy all then Some (append params (VStr "--all"))
  else if truthy name then Some (extend params [VStr "--name"; name])
  else None.

(** Lines 234-251. *)
Definition pause (env : Env) (self : Client) (all name : value) : M value :=
  match selector all name with
  | Some params => do* _execute env self "pause" params false in ret VNone
  | None => ret VNone
  end.

(** Lines 253-270. *)
Definition resume (env : Env) (self : Client) (all name : value) : M value :=
  match selector all name with
  | Some params => do* _execute env self "resume" params false in ret VNone
  | None => ret VNone
  end.

(** Lines 321-338. *)
Definition stop (env : Env) (self : Client) (all name : value) : M value :=
  match selector all name with
  | Some params => do* _execute env self "stop" params false in ret VNone
  | None => ret VNone
  end.

(** Lines 313-317: the list [params] when line 319 is reached. *)
Definition balloon_params (name amount balloon_options : value) : list value :=
  let params := [VStr "name"; name] in
  if value_eqb balloon_options (VStr "inflate")
  then extend params [VStr "--inflate"; amount]
  else if value_eqb balloon_options (VStr "deflate")
  then extend params [VStr "--deflate"; amount]
  else params.

(** Lines 303-319. *)
Definition balloon (env : Env) (self : Client)
    (name amount balloon_options : value) : M value :=
  do* _execute env self "balloon" (balloon_params name amount balloon_options) false in
  ret VNone.

(** Lines 340-351: the method returns on its first statement. *)
Definition stat (env : Env) (self : Client) (memory all name : value) : M value :=
  ret VNone.

(** ** [Client._get_instance_info] (lines 54-64) *)

(** The argument [pid]: a string (as [list_instances] passes it) or an
    integer. *)
Inductive pid_arg : Type :=
  | PidStr (s : string)
  | PidInt (n : Z).

(** Lines 55-56: [pid] after [if isinstance(pid, six.string_types):
    pid = int(pid)]. *)
Definition int_of_pid (pid : pid_arg) : result Z :=
  match pid with
  | PidStr s => match py_int s with
                | Some n => Ok n
                | None => Raise ValueError
                end
  | PidInt n => Ok n
  end.

(** One round of the dict comprehension of line 61, at index [i]. *)
Definition props_step (args : list string)
    (acc : result (gmap string string)) (i : nat) : result (gmap string string) :=
  match acc with
  | Raise e => Raise e
  | Ok props =>
      match getitem args i with
      | Raise e => Raise e
      | Ok k =>
          match getitem args (i + 1) with
          | Raise e => Raise e
          | Ok v => Ok (<[drop2 k := v]> props)
          end
      end
  end.

(** [{args[i][2:]: args[i+1] for i in range(0, len(args), 2)}]. *)
Definition props_of (args : list string) : result (gmap string string) :=
  fold_left (props_step args) (range_step2 (length args)) (Ok ∅).

(** The result is the namespace of the class built by
    [type('LKVMInstance', (object,), props)]. *)
Definition _get_instance_info (env : Env) (pid : pid_arg)
    : result (gmap string string) :=
  match int_of_pid pid with
  | Raise e => Raise e
  | Ok pid =>
      match cmdline env pid with
      | Some cl =>
          let args := drop 2 cl in
          props_of args
      | None =>
          (* [except NoSuchProcess:] evaluates the name to match the
             exception against it *)
          match load_global "NoSuchProcess" with
          | Raise e => Raise e
          | Ok _ => Raise (LKVMException ("PID " ++ str (VInt pid) ++ " not found"))
          end
      end
  end.

(** ** [Client.list_instances] (lines 272-301) *)

(** The body of the loop of lines 293-299: the attributes of the class
    that is appended to [instances]. *)
Definition list_row (env : Env) (result : string) : M (gmap string string) :=
  let ins := split_ws result in
  let* ins0 := lift (getitem ins 0) in
  let* instance := lift (_get_instance_info env (PidStr ins0)) in
  let instance := <["pid" := ins0]> instance in
  let* ins1 := lift (getitem ins 1) in
  let instance := <["name" := ins1]> instance in
  let* ins2 := lift (getitem ins 2) in
  let instance := <["state" := ins2]> instance in
  ret instance.

(** Lines 281-285: the list [params] when line 287 is reached. *)
Definition list_params (run rootfs : value) : list value :=
  let params := [] in
  let params := if truthy run then append params (VStr "--run") else params in
  let params := if truthy rootfs then append params (VStr "--rootfs") else params in
  params.

Definition list_instances (env : Env) (self : Client) (run rootfs : value)
    : M (list (gmap string string)) :=
  let params := list_params run rootfs in
  let* output := _execute env self "list" params false in
  let instances := [] in
  match output with
  | VStr out =>
      if truthy output then
        let results := split_nl out in
        if (2 <? length results)%nat then
          for_each (list_row env) (slice_2_m1 results)
        else ret instances
      else ret instances
  | _ => ret instances
  end.

(** ** Sample environments *)

(** A root caller; [lkvm list] prints a header and one instance whose
    process is still alive. *)
Definition sample_listing : string :=
  join (String newline EmptyString)
    ["PID NAME STATE"; "----------------"; " 4242 guest-a running"; ""].

Definition env_root : Env := {|
  geteuid := Some 0%Z;
  popen := fun _ => Completed sample_listing "";
  popen_shell := fun _ => None;
  cmdline := fun pid =>
    if Z.eqb pid 4242
    then Some ["lkvm"; "run"; "--cpus"; "2"; "--name"; "guest-a"]
    else if Z.eqb pid 4243
    then Some ["lkvm"; "run"; "--name"; "guest-b"; "--balloon"]
    else None
|}.

(** A caller without privilege. *)
Definition env_user : Env := {|
  geteuid := Some 1000%Z;
  popen := fun _ => Completed sample_listing "";
  popen_shell := fun _ => None;
  cmdline := fun _ => None
|}.

Definition no_helper : Client := {| _root_helper := VNone |}.
Definition with_sudo : Client := {| _root_helper := VStr "sudo" |}.

Definition sample_cfg : Cfg.t := {|
  Cfg.cpus := VInt 2; Cfg.mem := VInt 512; Cfg.shmem := VStr "0x200000";
  Cfg.console := VStr "serial"; Cfg.kernel := VStr "/boot/vmlinuz";
  Cfg.params := VStr "console=ttyS0 quiet"; Cfg.network := VStr "mode=user";
  Cfg.name := VNone; Cfg.disk := VNone; Cfg.balloon := VBool false;
  Cfg.vnc := VBool false; Cfg.gtk := VBool false; Cfg.sdl := VBool false;
  Cfg.rng := VBool false; Cfg.plan9 := VBool false; Cfg.dev := VNone;
  Cfg.tty := VNone; Cfg.sandbox := VNone; Cfg.hugetlbs := VNone;
  Cfg.initrd := VNone; Cfg.firmware := VNone; Cfg.no_dhcp := VBool false
|}.

(** A root caller whose listed process has exited before the lookup. *)
Definition env_stale : Env := {|
  geteuid := Some 0%Z;
  popen := fun _ => Completed sample_listing "";
  popen_shell := fun _ => None;
  cmdline := fun _ => None
|}.

(** A root caller whose only listed instance was started as
    [lkvm run --name guest-b --balloon]: the process is alive, and its
    command line has three tokens after the first two. *)
Definition env_odd_row : Env := {|
  geteuid := Some 0%Z;
  popen := fun _ =>
    Completed (join (String newline EmptyString)
                 ["PID NAME STATE"; "----------------";
                  " 4243 guest-b running"; ""]) "";
  popen_shell := fun _ => None;
  cmdline := fun pid =>
    if Z.eqb pid 4243
    then Some ["lkvm"; "run"; "--name"; "guest-b"; "--balloon"]
    else None
|}.

(** A root caller whose only data line has two fields; the process of
    its pid is alive and its command line pairs up. *)
Definition env_short_row : Env := {|
  geteuid := Some 0%Z;
  popen := fun _ =>
    Completed (join (String newline EmptyString)
                 ["PID NAME STATE"; "----------------";
                  " 4242 guest-a"; ""]) "";
  popen_shell := fun _ => None;
  cmdline := fun pid =>
    if Z.eqb pid 4242
    then Some ["lkvm"; "run"; "--cpus"; "2"; "--name"; "guest-a"]
    else None
|}.

(** A root caller on a host where [lkvm list] prints nothing. *)
Definition env_empty : Env := {|
  geteuid := Some 0%Z;
  popen := fun _ => Completed "" "";
  popen_shell := fun _ => None;
  cmdline := fun _ => None
|}.

(** A root caller whose [lkvm] writes a diagnostic to standard error. *)
Definition env_failing : Env := {|
  geteuid := Some 0%Z;
  popen := fun _ => Completed "" "Error: no such instance";
  popen_shell := fun _ => None;
  cmdline := fun _ => None
|}.

(** What the claim about missing selectors asks of a call: [_execute]
    is never entered and the call returns normally. *)
Definition silent_noop {A} (m : M A) : Prop :=
  Forall (fun ev => is_execute ev = false) (trace m)
  /\ exists v, outcome m = Ok v.

(** ** Vocabulary of the statements about [list_instances] *)

(** The separator of the lines of an output. *)
Definition nl : string := String newline EmptyString.

(** A line of text: it holds no newline. *)
Fixpoint no_newline (s : string) : bool :=
  match s with
  | EmptyString => true
  | String c s' => negb (Ascii.eqb c newline) && no_newline s'
  end.

(** The tokens of a command line read two by two: a flag, whose first
    two characters are dropped, and its value. A later pair replaces
    an earlier one with the same key; a last token without a partner
    has no value to read. *)
Fixpoint pairs_props (acc : gmap string string) (args : list string)
    : result (gmap string string) :=
  match args with
  | [] => Ok acc
  | [_] => Raise IndexError
  | k :: v :: rest => pairs_props (<[drop2 k := v]> acc) rest
  end.

(** The first three fields of a data line. *)
Definition row_fields (d : string) : option (string * string * string) :=
  match split_ws d with
  | p :: n :: s :: _ => Some (p, n, s)
  | _ => None
  end.

(** A data line that can be turned into a record: it has three fields
    and the detail lookup for its first field succeeds. *)
Definition row_ok (env : Env) (d : string) : Prop :=
  exists p n s props,
    row_fields d = Some (p, n, s)
    /\ _get_instance_info env (PidStr p) = Ok props.

(** The record [inst] is the one of the data line [d]: its [pid],
    [name] and [state] are the first three fields of [d], and its other
    attributes are the properties found for that pid. *)
Definition describes (env : Env) (d : string) (inst : gmap string string) : Prop :=
  exists p n s props,
    row_fields d = Some (p, n, s)
    /\ _get_instance_info env (PidStr p) = Ok props
    /\ inst !! "pid" = Some p
    /\ inst !! "name" = Some n
    /\ inst !! "state" = Some s
    /\ forall k, k <> "pid" -> k <> "name" -> k <> "state" ->
                 inst !! k = props !! k.

(** ** Vocabulary of the statements about [run] and [sandbox] *)

(** The values for which line 178 lets the console flag through. *)
Definition console_values : list value :=
  [VStr "serial"; VStr "virtio"; VStr "hv"].

(** The contribution of one [if b: _params.extend(xs)] statement. *)
Definition opt (b : bool) (xs : list value) : list value :=
  if b then xs else [].

(** The argument vector written as one concatenation, in the order of
    the statements of lines 172-218. *)
Definition run_layout (c : Cfg.t) : list value :=
  [VStr "--cpus"; Cfg.cpus c; VStr "--mem"; Cfg.mem c; VStr "--shmem"; Cfg.shmem c]
  ++ opt (truthy (Cfg.name c)) [VStr "--name"; Cfg.name c]
  ++ opt (py_in (Cfg.console c) console_values)
         [VStr "--console"; Cfg.console c]
  ++ opt (truthy (Cfg.balloon c)) [VStr "--balloon"]
  ++ opt (truthy (Cfg.vnc c)) [VStr "--vnc"]
  ++ opt (truthy (Cfg.gtk c)) [VStr "--gtk"]
  ++ opt (truthy (Cfg.sdl c)) [VStr "--sdl"]
  ++ opt (truthy (Cfg.rng c)) [VStr "--rng"]
  ++ opt (truthy (Cfg.plan9 c)) [VStr "--9p"]
  ++ opt (truthy (Cfg.disk c)) [VStr "--disk"; Cfg.disk c]
  ++ opt (truthy (Cfg.dev c)) [VStr "--dev"; Cfg.dev c]
  ++ opt (truthy (Cfg.tty c)) [VStr "--tty"; Cfg.tty c]
  ++ opt (truthy (Cfg.sandbox c)) [VStr "--sandbox"; Cfg.sandbox c]
  ++ opt (truthy (Cfg.hugetlbs c)) [VStr "--hugetlbs"; Cfg.hugetlbs c]
  ++ [VStr "--kernel"; Cfg.kernel c; VStr "--params"; VStr (quoted (Cfg.params c))]
  ++ opt (truthy (Cfg.initrd c)) [VStr "--initrd"; Cfg.initrd c]
  ++ opt (truthy (Cfg.firmware c)) [VStr "--firmware"; Cfg.firmware c]
  ++ [VStr "--network"; Cfg.network c]
  ++ opt (truthy (Cfg.no_dhcp c)) [VStr "--no-dhcp"].

Definition optional_flags : list string :=
  ["--name"; "--console"; "--balloon"; "--vnc"; "--gtk"; "--sdl"; "--rng";
   "--9p"; "--disk"; "--dev"; "--tty"; "--sandbox"; "--hugetlbs";
   "--initrd"; "--firmware"; "--no-dhcp"].

(** The caller's values that are placed in the vector as they are
    (the console value is placed only when it is one of the three
    console names, and the kernel parameters only between quotes). *)
Definition operands (c : Cfg.t) : list value :=
  [Cfg.cpus c; Cfg.mem c; Cfg.shmem c; Cfg.name c; Cfg.disk c; Cfg.dev c;
   Cfg.tty c; Cfg.sandbox c; Cfg.hugetlbs c; Cfg.kernel c; Cfg.initrd c;
   Cfg.firmware c; Cfg.network c].

(** No operand is the string [flag] itself. *)
Definition operands_avoid (flag : string) (c : Cfg.t) : bool :=
  forallb (fun v => negb (value_eqb v (VStr flag))) (operands c).

(** No operand is the text of an optional flag. *)
Definition plain_operands (c : Cfg.t) : bool :=
  forallb (fun flag => operands_avoid flag c) optional_flags.

(** Each optional flag with the condition on the caller's input under
    which the claim expects it. *)
Definition flag_gates (c : Cfg.t) : list (string * Prop) :=
  [("--name", truthy (Cfg.name c) = true);
   ("--console", In (Cfg.console c) console_values);
   ("--balloon", truthy (Cfg.balloon c) = true);
   ("--vnc", truthy (Cfg.vnc c) = true);
   ("--gtk", truthy (Cfg.gtk c) = true);
   ("--sdl", truthy (Cfg.sdl c) = true);
   ("--rng", truthy (Cfg.rng c) = true);
   ("--9p", truthy (Cfg.plan9 c) = true);
   ("--disk", truthy (Cfg.disk c) = true);
   ("--dev", truthy (Cfg.dev c) = true);
   ("--tty", truthy (Cfg.tty c) = true);
   ("--sandbox", truthy (Cfg.sandbox c) = true);
   ("--hugetlbs", truthy (Cfg.hugetlbs c) = true);
   ("--initrd", truthy (Cfg.initrd c) = true);
   ("--firmware", truthy (Cfg.firmware c) = true);
   ("--no-dhcp", truthy (Cfg.no_dhcp c) = true)].

(** [c] with another console value. *)
Definition set_console (v : value) (c : Cfg.t) : Cfg.t := {|
  Cfg.cpus := Cfg.cpus c; Cfg.mem := Cfg.mem c; Cfg.shmem := Cfg.shmem c;
  Cfg.console := v; Cfg.kernel := Cfg.kernel c;
  Cfg.params := Cfg.params c; Cfg.network := Cfg.network c;
  Cfg.name := Cfg.name c; Cfg.disk := Cfg.disk c; Cfg.balloon := Cfg.balloon c;
  Cfg.vnc := Cfg.vnc c; Cfg.gtk := Cfg.gtk c; Cfg.sdl := Cfg.sdl c;
  Cfg.rng := Cfg.rng c; Cfg.plan9 := Cfg.plan9 c; Cfg.dev := Cfg.dev c;
  Cfg.tty := Cfg.tty c; Cfg.sandbox := Cfg.sandbox c;
  Cfg.hugetlbs := Cfg.hugetlbs c; Cfg.initrd := Cfg.initrd c;
  Cfg.firmware := Cfg.firmware c; Cfg.no_dhcp := Cfg.no_dhcp c
|}.

(** ** The rest of the class *)

(** [Client.__init__] (lines 43-44): a client without root helper. *)
Definition __init__ : Client := {| _root_helper := VNone |}.

(** The property [root_helper] (lines 46-48) and its setter (lines
    50-52), the latter as the client after the assignment. *)
Definition root_helper (self : Client) : value := _root_helper self.

Definition root_helper_setter (self : Client) (v : value) : Client :=
  {| _root_helper := v |}.

(** [Client.is_supported] (lines 483-484), over [os.path.isfile]. *)
Definition is_supported (isfile : string -> bool) (self : Client) : bool :=
  isfile LKVM_PATH.

(** ** Vocabulary of the further statements *)

(** The number of processes a computation created. *)
Definition spawns {A} (m : M A) : nat :=
  length (List.filter is_spawn (trace m)).

(** How a foreground call ends once its process has completed with
    [err] on standard error, when it would return [r]. *)
Definition completed_as {A} (err : string) (r : A) : result A :=
  if String.eqb err "" then Ok r else Raise (LKVMException err).

(** The text handed to the shell for a detached command. *)
Definition shell_line (self : Client) (cmd : string) (args : list value)
    : string :=
  "nohup " ++ join " " (command_of self cmd args) ++ " >/dev/null 2>&1".

(** The number of newlines of a text. *)
Fixpoint count_nl (s : string) : nat :=
  match s with
  | EmptyString => 0
  | String c s' => (if Ascii.eqb c newline then 1 else 0) + count_nl s'
  end.

(** The tokens of a command line as (key, value) pairs, in order; a
    last token without a partner is left out. *)
Fixpoint pairs_of (args : list string) : list (string * string) :=
  match args with
  | k :: v :: rest => (drop2 k, v) :: pairs_of rest
  | _ => []
  end.

(** The exceptions a detail lookup can end in. *)
Definition lookup_error (e : exn) : Prop :=
  e = ValueError \/ e = NameError "NoSuchProcess" \/ e = IndexError.

(** A data line that cannot be turned into a record, and the exception
    it ends in: a line without any field, a line whose detail lookup
    fails, or a line with fewer than three fields. *)
Inductive row_error (env : Env) (d : string) : exn -> Prop :=
  | row_blank :
      split_ws d = [] -> row_error env d IndexError
  | row_lookup p rest e :
      split_ws d = p :: rest ->
      _get_instance_info env (PidStr p) = Raise e ->
      row_error env d e
  | row_short p rest props :
      split_ws d = p :: rest ->
      (length rest < 2)%nat ->
      _get_instance_info env (PidStr p) = Ok props ->
      row_error env d IndexError.

(** A root caller whose second listed line is blank. *)
Definition env_blank_row : Env := {|
  geteuid := Some 0%Z;
  popen := fun _ =>
    Completed (join nl ["PID NAME STATE"; "----------------";
                        " 4242 guest-a running"; "   "; ""]) "";
  popen_shell := fun _ => None;
  cmdline := fun pid =>
    if Z.eqb pid 4242
    then Some ["lkvm"; "run"; "--cpus"; "2"; "--name"; "guest-a"]
    else None
|}.

(** A root caller whose [lkvm list] output does not end in a newline. *)
Definition env_no_final_newline : Env := {|
  geteuid := Some 0%Z;
  popen := fun _ =>
    Completed (join nl ["PID NAME STATE"; "----------------";
                        " 4242 guest-a running"; " 4243 guest-b running"]) "";
  popen_shell := fun _ => None;
  cmdline := fun pid =>
    if Z.eqb pid 4242
    then Some ["lkvm"; "run"; "--cpus"; "2"; "--name"; "guest-a"]
    else None
|}.

(** A host whose [os] module has no [geteuid]. *)
Definition env_no_geteuid : Env := {|
  geteuid := None;
  popen := fun _ => Completed "" "";
  popen_shell := fun _ => None;
  cmdline := fun _ => None
|}.

(** A root caller on a host where [lkvm] cannot be started. *)
Definition env_no_lkvm : Env := {|
  geteuid := Some 0%Z;
  popen := fun _ => SpawnError "No such file or directory";
  popen_shell := fun _ => Some "No such file or directory";
  cmdline := fun _ => None
|}.

(** The arguments [pause], [resume] and [stop] pass on when a selector
    is given. *)
Definition selected (all name : value) : list value :=
  if truthy all then [VStr "--all"] else [VStr "--name"; name].

(** The number of processes [_execute] creates for this caller. *)
Definition passes (env : Env) (self : Client) : nat :=
  if unprivileged env self then 0 else 1.

(** A root caller whose [lkvm list] prints a header without rows. *)
Definition env_header_only : Env := {|
  geteuid := Some 0%Z;
  popen := fun _ => Completed (join nl ["PID NAME STATE"; "----------------"]) "";
  popen_shell := fun _ => None;
  cmdline := fun _ => None
|}.

(** * Properties *)

(** ** Sanity checks of the string functions *)

Example split_nl_ex :
  split_nl (String "a" (String newline (String newline (String "b" EmptyString))))
  = ["a"; ""; "b"].
Proof. reflexivity. Qed.

Example split_ws_ex : split_ws "  12  vm-a running " = ["12"; "vm-a"; "running"].
Proof. reflexivity. Qed.

Example str_ex : str (VInt 512) = "512" /\ str (VInt (-3)) = "-3".
Proof. split; reflexivity. Qed.

Example py_int_ex : py_int "0042" = Some 42%Z /\ py_int "4x" = None /\ py_int "-" = None.
Proof. repeat split; reflexivity. Qed.

(** ** Sanity checks of the methods *)

Example run_as_root :
  run env_root no_helper sample_cfg
  = (Ok VNone,
     [Ev_execute "run" (run_params sample_cfg) true;
      Ev_popen_shell
        (join " "
           ["nohup"; "/usr/bin/lkvm"; "run"; "--cpus"; "2"; "--mem"; "512";
            "--shmem"; "0x200000"; "--console"; "serial";
            "--kernel"; "/boot/vmlinuz";
            "--params"; quoted (VStr "console=ttyS0 quiet");
            "--network"; "mode=user"]
         ++ " >/dev/null 2>&1")%string]).
Proof. reflexivity. Qed.

Example pause_with_helper :
  pause env_user with_sudo (VBool false) (VStr "guest-a")
  = (Ok VNone,
     [Ev_execute "pause" [VStr "--name"; VStr "guest-a"] false;
      Ev_popen ["sudo"; "/usr/bin/lkvm"; "pause"; "--name"; "guest-a"]]).
Proof. reflexivity. Qed.

Example stop_fails_on_stderr :
  outcome (stop env_failing no_helper (VBool true) VNone)
  = Raise (LKVMException "Error: no such instance").
Proof. reflexivity. Qed.

Example list_as_root :
  trace (list_instances env_root no_helper (VBool true) (VBool false))
  = [Ev_execute "list" [VStr "--run"] false;
     Ev_popen ["/usr/bin/lkvm"; "list"; "--run"]].
Proof. reflexivity. Qed.

Example stat_does_nothing :
  stat env_root no_helper (VBool true) (VBool true) (VStr "guest-a") = ret VNone.
Proof. reflexivity. Qed.

(** ** The monad *)

Lemma outcome_bind {A B} (m : M A) (k : A -> M B) :
  outcome (bind m k) =
  match outcome m with
  | Ok a => outcome (k a)
  | Raise e => Raise e
  end.
Proof.
  destruct m as [[a | e] t]; simpl; [| reflexivity].
  destruct (k a); reflexivity.
Qed.



(** ** The execution primitive *)

(** The first thing [_execute] does is recorded, and it is the only
    record of an entry: the rest of the trace is process creations. *)
Lemma execute_trace env self cmd args background :
  exists rest,
    trace (_execute env self cmd args background)
    = Ev_execute cmd args background :: rest
    /\ Forall (fun ev => is_spawn ev = true) rest
    /\ (unprivileged env self = false -> rest <> []).
Proof.
  unfold _execute. destruct (unprivileged env self).
  - exists []. repeat split; [constructor | discriminate].
  - destruct background.
    + eexists. split.
      * cbn. destruct (popen_shell env _); reflexivity.
      * split; [repeat constructor | discriminate].
    + eexists. split.
      * cbn. destruct (popen env _) as [d | d | out err]; try reflexivity.
        destruct (negb _); reflexivity.
      * split; [repeat constructor | discriminate].
Qed.

(** C7. When the effective uid is not 0 and no root helper is set (the
    attribute is [None], or any falsy value), [_execute] returns [None]:
    it raises nothing and creates no process, in foreground and in
    background mode alike. *)
Theorem execute_unprivileged_noop env self cmd args background uid :
  geteuid env = Some uid ->
  uid <> 0%Z ->
  truthy (_root_helper self) = false ->
  outcome (_execute env self cmd args background) = Ok VNone
  /\ Forall (fun ev => is_spawn ev = false)
            (trace (_execute env self cmd args background)).
Proof.
  intros Huid Hnz Hhelper.
  assert (Hu : unprivileged env self = true).
  { unfold unprivileged. rewrite Huid, Hhelper.
    apply Z.eqb_neq in Hnz. rewrite Hnz. reflexivity. }
  unfold _execute. rewrite Hu. cbn.
  split; [reflexivity | repeat constructor].
Qed.

Lemma execute_unprivileged_noop_witness :
  outcome (_execute env_user no_helper "list" [VStr "--run"] false) = Ok VNone
  /\ Forall (fun ev => is_spawn ev = false)
            (trace (_execute env_user no_helper "list" [VStr "--run"] false)).
Proof.
  apply (execute_unprivileged_noop env_user no_helper "list" [VStr "--run"] false 1000%Z).
  - reflexivity.
  - discriminate.
  - reflexivity.
Defined.

Lemma execute_foreground env self cmd args :
  unprivileged env self = false ->
  outcome (_execute env self cmd args false) =
  match popen env (command_of self cmd args) with
  | SpawnError d => Raise (OSError d)
  | CommError d => Raise (NameError "ProcessExecutionError")
  | Completed out err =>
      if String.eqb err "" then Ok (VStr out) else Raise (LKVMException err)
  end.
Proof.
  intros Hp. unfold _execute. rewrite Hp. cbn.
  destruct (popen env _) as [d | d | out err]; try reflexivity.
  destruct (String.eqb err ""); reflexivity.
Qed.

(** C8. In a foreground execution whose process ran to completion with
    standard output [out] and standard error [err], [_execute] raises
    [LKVMException] exactly when [err] is not empty, the exception
    carries [err] itself, and with an empty [err] the call returns
    [out]. *)
Theorem execute_foreground_stderr env self cmd args out err :
  unprivileged env self = false ->
  popen env (command_of self cmd args) = Completed out err ->
  ((exists msg, outcome (_execute env self cmd args false)
                = Raise (LKVMException msg)) <-> err <> "")
  /\ (err <> "" ->
      outcome (_execute env self cmd args false) = Raise (LKVMException err))
  /\ (err = "" ->
      outcome (_execute env self cmd args false) = Ok (VStr out)).
Proof.
  intros Hp Hrun. rewrite (execute_foreground _ _ _ _ Hp), Hrun.
  destruct (String.eqb_spec err "") as [-> | Hne].
  - repeat split.
    + intros [msg H]. discriminate.
    + intros H. contradiction.
    + intros H. contradiction.
  - repeat split.
    + intros _. exact Hne.
    + intros _. eauto.
    + intros H. contradiction.
Qed.

Lemma execute_foreground_stderr_witness :
  ((exists msg, outcome (_execute env_failing no_helper "pause" [VStr "--all"] false)
                = Raise (LKVMException msg))
   <-> "Error: no such instance" <> "")
  /\ ("Error: no such instance" <> "" ->
      outcome (_execute env_failing no_helper "pause" [VStr "--all"] false)
      = Raise (LKVMException "Error: no such instance"))
  /\ ("Error: no such instance" = "" ->
      outcome (_execute env_failing no_helper "pause" [VStr "--all"] false)
      = Ok (VStr "")).
Proof.
  apply (execute_foreground_stderr env_failing no_helper "pause" [VStr "--all"]
           "" "Error: no such instance").
  - reflexivity.
  - reflexivity.
Defined.

(** ** Selectors *)

Lemma selector_none all name :
  truthy all = false -> truthy name = false -> selector all name = None.
Proof. intros Ha Hn. unfold selector. rewrite Ha, Hn. reflexivity. Qed.

Lemma trace_then_ret env self cmd args background :
  trace (do* _execute env self cmd args background in ret VNone)
  = trace (_execute env self cmd args background).
Proof.
  destruct (_execute env self cmd args background) as [[v | e] t]; simpl;
    [apply app_nil_r | reflexivity].
Qed.

(** C1, as the methods have it. [pause], [resume] and [stop] called
    with a falsy [all] and a falsy [name] return [None] at once: no
    event at all is recorded, so [_execute] is not entered, and nothing
    is raised. [run] and [balloon] have no such exit: whatever [name]
    is, each enters [_execute] once, with its argument list. *)
Theorem selector_absent_noop env self all name :
  truthy all = false ->
  truthy name = false ->
  pause env self all name = ret VNone
  /\ resume env self all name = ret VNone
  /\ stop env self all name = ret VNone
  /\ (forall c, exists rest,
        trace (run env self c) = Ev_execute "run" (run_params c) true :: rest
        /\ Forall (fun ev => is_spawn ev = true) rest)
  /\ (forall amount mode, exists rest,
        trace (balloon env self name amount mode)
        = Ev_execute "balloon" (balloon_params name amount mode) false :: rest
        /\ Forall (fun ev => is_spawn ev = true) rest).
Proof.
  intros Ha Hn. unfold pause, resume, stop.
  rewrite (selector_none _ _ Ha Hn). repeat split.
  - intros c. unfold run. rewrite trace_then_ret.
    destruct (execute_trace env self "run" (run_params c) true) as (rest & H1 & H2 & _).
    eauto.
  - intros amount mode. unfold balloon. rewrite trace_then_ret.
    destruct (execute_trace env self "balloon" (balloon_params name amount mode) false)
      as (rest & H1 & H2 & _).
    eauto.
Qed.

Lemma selector_absent_noop_witness :
  pause env_root no_helper (VBool false) VNone = ret VNone
  /\ resume env_root no_helper (VBool false) VNone = ret VNone
  /\ stop env_root no_helper (VBool false) VNone = ret VNone
  /\ (forall c, exists rest,
        trace (run env_root no_helper c) = Ev_execute "run" (run_params c) true :: rest
        /\ Forall (fun ev => is_spawn ev = true) rest)
  /\ (forall amount mode, exists rest,
        trace (balloon env_root no_helper VNone amount mode)
        = Ev_execute "balloon" (balloon_params VNone amount mode) false :: rest
        /\ Forall (fun ev => is_spawn ev = true) rest).
Proof.
  apply (selector_absent_noop env_root no_helper (VBool false) VNone).
  - reflexivity.
  - reflexivity.
Defined.

(** C1 as stated fails for [run] and for [balloon]: called by root
    without a name (and [run] has no [all] at all), each enters
    [_execute] and a process is created. *)
Lemma run_balloon_without_name_execute :
  truthy (Cfg.name sample_cfg) = false
  /\ (silent_noop (run env_root no_helper sample_cfg) -> False)
  /\ existsb is_spawn (trace (run env_root no_helper sample_cfg)) = true
  /\ (silent_noop (balloon env_root no_helper VNone (VInt 512) (VStr "inflate"))
      -> False)
  /\ trace (balloon env_root no_helper VNone (VInt 512) (VStr "inflate"))
     = [Ev_execute "balloon" [VStr "name"; VNone; VStr "--inflate"; VInt 512] false;
        Ev_popen ["/usr/bin/lkvm"; "balloon"; "name"; "None"; "--inflate"; "512"]].
Proof.
  split; [reflexivity |]. split.
  { intros [H _]. vm_compute in H. inversion H as [| ? ? Hev _]. discriminate. }
  split; [reflexivity |]. split.
  { intros [H _]. vm_compute in H. inversion H as [| ? ? Hev _]. discriminate. }
  reflexivity.
Qed.

(** ** Balloon *)

Lemma value_eqb_str v s : value_eqb v (VStr s) = true <-> v = VStr s.
Proof.
  destruct v as [| b | n | s']; simpl; split; intros H; try discriminate.
  - apply String.eqb_eq in H. congruence.
  - injection H as ->. apply String.eqb_refl.
Qed.

Lemma value_eqb_str_false v s : v <> VStr s -> value_eqb v (VStr s) = false.
Proof.
  intros H. destruct (value_eqb v (VStr s)) eqn:E; [| reflexivity].
  apply value_eqb_str in E. contradiction.
Qed.

(** C6. [balloon] hands [_execute] the list [name <name>] followed by
    [--inflate <amount>] when the mode is the string [inflate], by
    [--deflate <amount>] when it is [deflate], and by nothing for any
    other mode. *)
Theorem balloon_mode_flags env self name amount mode :
  balloon_params name amount (VStr "inflate")
  = [VStr "name"; name; VStr "--inflate"; amount]
  /\ balloon_params name amount (VStr "deflate")
     = [VStr "name"; name; VStr "--deflate"; amount]
  /\ (mode <> VStr "inflate" -> mode <> VStr "deflate" ->
      balloon_params name amount mode = [VStr "name"; name])
  /\ exists rest,
       trace (balloon env self name amount mode)
       = Ev_execute "balloon" (balloon_params name amount mode) false :: rest.
Proof.
  repeat split.
  - intros Hi Hd. unfold balloon_params.
    rewrite (value_eqb_str_false _ _ Hi), (value_eqb_str_false _ _ Hd).
    reflexivity.
  - unfold balloon. rewrite trace_then_ret.
    destruct (execute_trace env self "balloon" (balloon_params name amount mode) false)
      as (rest & H & _).
    eauto.
Qed.

Lemma balloon_mode_flags_witness :
  balloon_params (VStr "guest-a") (VInt 512) (VStr "shrink")
  = [VStr "name"; VStr "guest-a"].
Proof.
  apply (balloon_mode_flags env_root no_helper (VStr "guest-a") (VInt 512) (VStr "shrink"));
    discriminate.
Defined.

(** ** A listed process that has exited *)

Lemma get_instance_info_missing env n :
  cmdline env n = None ->
  _get_instance_info env (PidInt n) = Raise (NameError "NoSuchProcess").
Proof. intros H. unfold _get_instance_info, int_of_pid. rewrite H. reflexivity. Qed.

(** C2. The list output names process 4242, which is gone from the
    process table when its details are looked up: [list_instances]
    fails with [NameError] for the unbound name [NoSuchProcess] of the
    [except] clause, and not with the [LKVMException] "PID 4242 not
    found" that the handler was written to raise. *)
Theorem list_instances_stale_pid :
  split_nl sample_listing
  = ["PID NAME STATE"; "----------------"; " 4242 guest-a running"; ""]
  /\ cmdline env_stale 4242 = None
  /\ outcome (list_instances env_stale no_helper (VBool true) (VBool true))
     = Raise (NameError "NoSuchProcess")
  /\ outcome (list_instances env_stale no_helper (VBool true) (VBool true))
     <> Raise (LKVMException "PID 4242 not found").
Proof. repeat split; try reflexivity. vm_compute. discriminate. Qed.

(** ** [run] and [sandbox] *)

Lemma sandbox_params_run c : sandbox_params c = run_params c.
Proof. reflexivity. Qed.

Lemma if_extend (b : bool) (l xs : list value) :
  (if b then extend l xs else l) = l ++ opt b xs.
Proof. destruct b; simpl; [reflexivity | symmetry; apply app_nil_r]. Qed.

Lemma if_append (b : bool) (l : list value) x :
  (if b then append l x else l) = l ++ opt b [x].
Proof. destruct b; simpl; [reflexivity | symmetry; apply app_nil_r]. Qed.

Lemma let_step {A B} (E E' : A) (k : A -> B) :
  E = E' -> (let p := E in k p) = k E'.
Proof. intros ->. reflexivity. Qed.

(** One assignment to [_params]: bring its right-hand side to the form
    [prefix ++ opt b xs], then move on to the next statement. *)
Ltac step_let :=
  lazymatch goal with
  | |- ?lhs = _ =>
      lazymatch lhs with
      | (let p := ?E in @?B p) =>
          refine (eq_trans (let_step E _ B _) _);
          [ rewrite ?if_extend, ?if_append; reflexivity | cbv beta ]
      end
  end.

(** What the twenty statements of [run] leave in [_params]. *)
Lemma run_params_layout c : run_params c = run_layout c.
Proof.
  cbv beta delta [run_params].
  repeat step_let.
  unfold extend, run_layout. rewrite app_nil_l.
  repeat rewrite <- app_assoc.
  reflexivity.
Qed.

Lemma in_opt (x : value) b xs : In x (opt b xs) <-> b = true /\ In x xs.
Proof.
  destruct b; simpl; split; try tauto.
  - intros [H _]. discriminate.
Qed.

Lemma py_in_console v : py_in v console_values = true <-> In v console_values.
Proof.
  unfold py_in, console_values. simpl. rewrite !orb_true_iff, !value_eqb_str.
  split.
  - intros [H | [H | [H | H]]]; subst; auto; discriminate.
  - intros [H | [H | [H | []]]]; subst; auto.
Qed.

Lemma operands_avoid_spec flag c :
  operands_avoid flag c = true -> Forall (fun v => v <> VStr flag) (operands c).
Proof.
  unfold operands_avoid. intros H. apply Forall_forall. intros v Hv.
  rewrite forallb_forall in H. specialize (H v (proj1 (list_elem_of_In _ _) Hv)).
  intros ->. rewrite (proj2 (value_eqb_str _ _) eq_refl) in H. discriminate.
Qed.

Lemma plain_operands_avoid c flag :
  plain_operands c = true -> In flag optional_flags -> operands_avoid flag c = true.
Proof.
  unfold plain_operands. rewrite forallb_forall. intros H Hin. apply H, Hin.
Qed.

Lemma quoted_not_flag v s : VStr (quoted v) = VStr (String "-" s) -> False.
Proof. unfold quoted, dquote. intros H. discriminate. Qed.

Lemma console_not_flag v s : In v console_values -> v <> VStr (String "-" s).
Proof. intros [<- | [<- | [<- | []]]]; discriminate. Qed.

(** One hypothesis per operand of [c]: it is not the string [flag]. *)
Ltac operand_facts c flag Havoid :=
  let H := fresh "Hop" in
  pose proof (operands_avoid_spec flag c Havoid) as H;
  unfold operands in H;
  repeat match goal with
         | H : Forall _ (_ :: _) |- _ =>
             let H1 := fresh "Hne" in
             let H2 := fresh "Hrest" in
             apply Forall_cons_iff in H; destruct H as [H1 H2]
         | H : Forall _ [] |- _ => clear H
         end.

(** The cases an occurrence of a flag in a segment leaves: the flag of
    the segment itself, another flag, or an operand. *)
Ltac leaf H Hb :=
  first [ assumption
        | contradiction
        | discriminate H
        | congruence
        | exfalso; eapply quoted_not_flag; exact H
        | match type of H with
          | ?v = VStr _ => exfalso; exact (console_not_flag v _ Hb H)
          end ].

(** A flag that occurs in the layout occurs in its own segment. *)
Ltac flag_occurs_gated :=
  let H := fresh "H" in
  let Hb := fresh "Hb" in
  intros H; unfold run_layout in H;
  repeat (apply in_app_or in H; destruct H as [H | H]);
  try (apply in_opt in H; destruct H as [Hb H]);
  try (apply py_in_console in Hb);
  simpl in H;
  repeat match type of H with
         | _ \/ _ => destruct H as [H | H]
         end;
  leaf H Hb.

(** A flag whose gate is open occurs in the layout. *)
Ltac gated_flag_occurs :=
  let Hb := fresh "Hb" in
  intros Hb; try (apply py_in_console in Hb);
  unfold run_layout; rewrite Hb; cbn [opt];
  repeat (apply in_or_app; first [ left; simpl; solve [auto] | right ]);
  simpl; auto.

Lemma layout_gates c :
  plain_operands c = true ->
  Forall (fun g => In (VStr g.1) (run_layout c) <-> g.2) (flag_gates c).
Proof.
  intros Hplain. unfold flag_gates.
  repeat (apply Forall_cons; split); try apply Forall_nil;
    try exact I; cbn [fst snd];
    match goal with
    | |- In (VStr ?flag) _ <-> _ =>
        operand_facts c flag
          (plain_operands_avoid c flag Hplain ltac:(simpl; tauto))
    end;
    (split; [flag_occurs_gated | gated_flag_occurs]).
Qed.

(** C4, as the methods have it. Provided that no operand is itself the
    text of an optional flag, the vector built by [run] and by [sandbox]
    begins with [--cpus c --mem m --shmem s]; every optional flag
    other than [--console] occurs in it exactly when its input is
    truthy; and [--console] occurs exactly when the console value is
    one of [serial], [virtio], [hv]. *)
Theorem run_flags_gated c :
  plain_operands c = true ->
  take 6 (run_params c)
  = [VStr "--cpus"; Cfg.cpus c; VStr "--mem"; Cfg.mem c; VStr "--shmem"; Cfg.shmem c]
  /\ take 6 (sandbox_params c)
     = [VStr "--cpus"; Cfg.cpus c; VStr "--mem"; Cfg.mem c; VStr "--shmem"; Cfg.shmem c]
  /\ Forall (fun g => In (VStr g.1) (run_params c) <-> g.2) (flag_gates c)
  /\ Forall (fun g => In (VStr g.1) (sandbox_params c) <-> g.2) (flag_gates c).
Proof.
  intros Hplain.
  pose proof (eq_trans (sandbox_params_run c) (run_params_layout c)) as Hs.
  rewrite Hs, ?run_params_layout.
  repeat split; try reflexivity; apply layout_gates, Hplain.
Qed.

Lemma run_flags_gated_witness :
  take 6 (run_params sample_cfg)
  = [VStr "--cpus"; VInt 2; VStr "--mem"; VInt 512; VStr "--shmem"; VStr "0x200000"]
  /\ Forall (fun g => In (VStr g.1) (run_params sample_cfg) <-> g.2)
            (flag_gates sample_cfg).
Proof.
  destruct (run_flags_gated sample_cfg) as (H1 & _ & H3 & _).
  - reflexivity.
  - split; [exact H1 | exact H3].
Defined.

(** A console value that is truthy and not a console name. *)
Definition cfg_bad_console : Cfg.t := set_console (VStr "ttyS0") sample_cfg.

(** C4 as stated fails for the console flag: the console value [ttyS0]
    is present and truthy, and the vector has no [--console]. *)
Lemma console_truthy_without_flag :
  truthy (Cfg.console cfg_bad_console) = true
  /\ (In (VStr "--console") (run_params cfg_bad_console) -> False)
  /\ (In (VStr "--console") (sandbox_params cfg_bad_console) -> False)
  /\ run_params cfg_bad_console
     = [VStr "--cpus"; VInt 2; VStr "--mem"; VInt 512; VStr "--shmem"; VStr "0x200000";
        VStr "--kernel"; VStr "/boot/vmlinuz";
        VStr "--params"; VStr (quoted (VStr "console=ttyS0 quiet"));
        VStr "--network"; VStr "mode=user"].
Proof.
  split; [reflexivity |]. split.
  { vm_compute. intuition discriminate. }
  split.
  { vm_compute. intuition discriminate. }
  reflexivity.
Qed.

(** ** The console flag *)

Lemma console_flag_iff c :
  operands_avoid "--console" c = true ->
  In (VStr "--console") (run_layout c) <-> In (Cfg.console c) console_values.
Proof.
  intros Havoid. operand_facts c "--console" Havoid.
  split; [flag_occurs_gated | gated_flag_occurs].
Qed.

Lemma console_outside_ignored c :
  ~ In (Cfg.console c) console_values ->
  run_layout c = run_layout (set_console VNone c).
Proof.
  intros Hout. unfold run_layout, set_console. cbn [Cfg.cpus Cfg.mem Cfg.shmem
    Cfg.console Cfg.kernel Cfg.params Cfg.network Cfg.name Cfg.disk Cfg.balloon
    Cfg.vnc Cfg.gtk Cfg.sdl Cfg.rng Cfg.plan9 Cfg.dev Cfg.tty Cfg.sandbox
    Cfg.hugetlbs Cfg.initrd Cfg.firmware Cfg.no_dhcp].
  destruct (py_in (Cfg.console c) console_values) eqn:E.
  - apply py_in_console in E. contradiction.
  - reflexivity.
Qed.

Lemma console_inside_placed c :
  In (Cfg.console c) console_values ->
  exists pre post,
    run_layout c = pre ++ [VStr "--console"; Cfg.console c] ++ post.
Proof.
  intros Hin. apply py_in_console in Hin. unfold run_layout. rewrite Hin.
  cbn [opt]. rewrite app_assoc. eauto.
Qed.

(** C5. Let no operand be the string [--console] itself. When the
    console value is one of [serial], [virtio], [hv], the vector of
    [run] and of [sandbox] contains [--console] followed by that value.
    For any other console value the vector has no [--console] element,
    and it is the vector the same call builds with no console at all:
    the value leaves no trace in it. *)
Theorem console_flag_gate c :
  operands_avoid "--console" c = true ->
  (In (Cfg.console c) console_values ->
   exists pre post,
     run_params c = pre ++ [VStr "--console"; Cfg.console c] ++ post
     /\ sandbox_params c = pre ++ [VStr "--console"; Cfg.console c] ++ post)
  /\ (~ In (Cfg.console c) console_values ->
      ~ In (VStr "--console") (run_params c)
      /\ ~ In (VStr "--console") (sandbox_params c)
      /\ run_params c = run_params (set_console VNone c)
      /\ sandbox_params c = sandbox_params (set_console VNone c)).
Proof.
  intros Havoid.
  pose proof (eq_trans (sandbox_params_run c) (run_params_layout c)) as Hs.
  pose proof (eq_trans (sandbox_params_run (set_console VNone c))
                (run_params_layout (set_console VNone c))) as Hs'.
  rewrite Hs, Hs', ?run_params_layout. split.
  - intros Hin. destruct (console_inside_placed c Hin) as (pre & post & H).
    exists pre, post. split; exact H.
  - intros Hout.
    assert (Hno : ~ In (VStr "--console") (run_layout c)).
    { intros H. apply Hout, (console_flag_iff c Havoid), H. }
    pose proof (console_outside_ignored c Hout) as Hsame.
    repeat split; assumption.
Qed.

Lemma console_flag_gate_witness :
  (exists pre post,
     run_params sample_cfg = pre ++ [VStr "--console"; VStr "serial"] ++ post)
  /\ ~ In (VStr "--console") (run_params cfg_bad_console)
  /\ run_params cfg_bad_console = run_params (set_console VNone cfg_bad_console).
Proof.
  split; [| split].
  - destruct (console_flag_gate sample_cfg eq_refl) as [Hin _].
    destruct Hin as (pre & post & H & _).
    + simpl. auto.
    + exists pre, post. exact H.
  - destruct (console_flag_gate cfg_bad_console eq_refl) as [_ Hout].
    apply Hout. simpl. intuition discriminate.
  - destruct (console_flag_gate cfg_bad_console eq_refl) as [_ Hout].
    apply Hout. simpl. intuition discriminate.
Defined.

(** ** [run] and [sandbox] build the same call *)

(** C9. For the same arguments, [sandbox] builds the very list that
    [run] builds, in which the kernel parameters stand as one element,
    between two quote characters, after [--params]; each method hands
    that list to [_execute] once, in background mode, [run] under the
    subcommand [run] and [sandbox] under [sandbox]. *)
Theorem run_sandbox_same env self c :
  sandbox_params c = run_params c
  /\ (exists pre post,
        run_params c
        = pre ++ [VStr "--params";
                  VStr (String dquote
                          (str (Cfg.params c) ++ String dquote EmptyString)%string)]
              ++ post)
  /\ run env self c = (do* _execute env self "run" (run_params c) true in ret VNone)
  /\ sandbox env self c
     = (do* _execute env self "sandbox" (run_params c) true in ret VNone)
  /\ (exists rest,
        trace (run env self c) = Ev_execute "run" (run_params c) true :: rest
        /\ Forall (fun ev => is_spawn ev = true) rest)
  /\ (exists rest,
        trace (sandbox env self c) = Ev_execute "sandbox" (run_params c) true :: rest
        /\ Forall (fun ev => is_spawn ev = true) rest).
Proof.
  split; [apply sandbox_params_run |]. split.
  { rewrite run_params_layout. unfold run_layout.
    exists ([VStr "--cpus"; Cfg.cpus c; VStr "--mem"; Cfg.mem c;
             VStr "--shmem"; Cfg.shmem c]
            ++ opt (truthy (Cfg.name c)) [VStr "--name"; Cfg.name c]
            ++ opt (py_in (Cfg.console c) console_values)
                   [VStr "--console"; Cfg.console c]
            ++ opt (truthy (Cfg.balloon c)) [VStr "--balloon"]
            ++ opt (truthy (Cfg.vnc c)) [VStr "--vnc"]
            ++ opt (truthy (Cfg.gtk c)) [VStr "--gtk"]
            ++ opt (truthy (Cfg.sdl c)) [VStr "--sdl"]
            ++ opt (truthy (Cfg.rng c)) [VStr "--rng"]
            ++ opt (truthy (Cfg.plan9 c)) [VStr "--9p"]
            ++ opt (truthy (Cfg.disk c)) [VStr "--disk"; Cfg.disk c]
            ++ opt (truthy (Cfg.dev c)) [VStr "--dev"; Cfg.dev c]
            ++ opt (truthy (Cfg.tty c)) [VStr "--tty"; Cfg.tty c]
            ++ opt (truthy (Cfg.sandbox c)) [VStr "--sandbox"; Cfg.sandbox c]
            ++ opt (truthy (Cfg.hugetlbs c)) [VStr "--hugetlbs"; Cfg.hugetlbs c]
            ++ [VStr "--kernel"; Cfg.kernel c]).
    eexists. repeat rewrite <- app_assoc. reflexivity. }
  split; [reflexivity |]. split; [reflexivity |]. split.
  - unfold run. rewrite trace_then_ret.
    destruct (execute_trace env self "run" (run_params c) true) as (rest & H1 & H2 & _).
    eauto.
  - unfold sandbox. rewrite trace_then_ret.
    change (sandbox_params c) with (run_params c).
    destruct (execute_trace env self "sandbox" (run_params c) true)
      as (rest & H1 & H2 & _).
    eauto.
Qed.

(** ** The property mapping *)

Lemma pair_ind {A} (P : list A -> Prop) :
  P [] -> (forall x, P [x]) -> (forall x y l, P l -> P (x :: y :: l)) ->
  forall l, P l.
Proof.
  intros Hnil Hone Hstep l.
  assert (H : P l /\ forall x, P (x :: l)).
  { induction l as [| y l [IH1 IH2]]; split; auto. }
  apply H.
Qed.


Lemma getitem_app_length {A} (pre : list A) x rest :
  getitem (pre ++ x :: rest) (length pre) = Ok x.
Proof. unfold getitem. rewrite list_lookup_middle; reflexivity. Qed.

Lemma getitem_app_succ {A} (pre : list A) x rest :
  getitem (pre ++ x :: rest) (length pre + 1) = getitem rest 0.
Proof.
  unfold getitem. rewrite lookup_app_r by lia.
  replace (length pre + 1 - length pre) with 1 by lia. reflexivity.
Qed.

(** The index loop of line 61, started at the pair number [k], reads
    the rest of the list two by two. *)
Lemma fold_props_pairs suffix :
  forall pre k acc,
    length pre = 2 * k ->
    fold_left (props_step (pre ++ suffix))
      (map (fun j => 2 * j) (seq k (Nat.div2 (length suffix + 1)))) (Ok acc)
    = pairs_props acc suffix.
Proof.
  induction suffix as [| x | x y l IH] using pair_ind; intros pre k acc Hlen.
  - reflexivity.
  - cbn [length Nat.add Nat.div2 seq map fold_left props_step].
    rewrite <- Hlen, getitem_app_length, getitem_app_succ. reflexivity.
  - replace (length (x :: y :: l) + 1) with (S (S (length l + 1)))
      by (simpl; lia).
    cbn [Nat.div2 seq map fold_left props_step].
    rewrite <- Hlen, getitem_app_length, getitem_app_succ. cbn [getitem lookup list_lookup].
    replace (pre ++ x :: y :: l) with ((pre ++ [x; y]) ++ l)
      by (rewrite <- app_assoc; reflexivity).
    apply IH. rewrite length_app. simpl. lia.
Qed.

Lemma props_of_pairs args : props_of args = pairs_props ∅ args.
Proof.
  unfold props_of, range_step2.
  apply (fold_props_pairs args [] 0 ∅). reflexivity.
Qed.

Lemma pairs_props_parity args :
  forall acc,
    match pairs_props acc args with
    | Ok _ => Nat.even (length args) = true
    | Raise e => Nat.odd (length args) = true /\ e = IndexError
    end.
Proof.
  induction args as [| x | x y l IH] using pair_ind; intros acc.
  - reflexivity.
  - split; reflexivity.
  - cbn [pairs_props]. specialize (IH (<[drop2 x := y]> acc)).
    destruct (pairs_props _ l); exact IH.
Qed.

(** C10. For a pid whose process exists, the lookup returns a property
    mapping only when the command line has an even number of tokens
    after the first two: with an odd number the pairing reads one past
    the end of the list and the call fails with [IndexError]; with an
    even number it returns the mapping of the pairs. *)
Theorem get_instance_info_parity env pid n cl :
  int_of_pid pid = Ok n ->
  cmdline env n = Some cl ->
  (Nat.odd (length (drop 2 cl)) = true ->
   _get_instance_info env pid = Raise IndexError)
  /\ (forall props, _get_instance_info env pid = Ok props ->
                    Nat.even (length (drop 2 cl)) = true)
  /\ (Nat.even (length (drop 2 cl)) = true ->
      _get_instance_info env pid = pairs_props ∅ (drop 2 cl)
      /\ exists props, _get_instance_info env pid = Ok props).
Proof.
  intros Hpid Hcl. unfold _get_instance_info. rewrite Hpid, Hcl.
  cbv zeta. rewrite props_of_pairs.
  pose proof (pairs_props_parity (drop 2 cl) ∅) as H.
  destruct (pairs_props ∅ (drop 2 cl)) as [props | e].
  - split; [| split].
    + intros Hodd. rewrite <- Nat.negb_even, H in Hodd. discriminate.
    + intros props' _. exact H.
    + intros _. eauto.
  - destruct H as [Hodd ->]. split; [| split].
    + reflexivity.
    + intros props Hp. discriminate.
    + intros Heven. rewrite <- Nat.negb_even, Heven in Hodd. discriminate.
Qed.

Lemma get_instance_info_parity_witness :
  _get_instance_info env_root (PidStr "4243") = Raise IndexError
  /\ exists props, _get_instance_info env_root (PidStr "4242") = Ok props.
Proof.
  split.
  - destruct (get_instance_info_parity env_root (PidStr "4243") 4243
                ["lkvm"; "run"; "--name"; "guest-b"; "--balloon"]) as [H _].
    + reflexivity.
    + reflexivity.
    + apply H. reflexivity.
  - destruct (get_instance_info_parity env_root (PidStr "4242") 4242
                ["lkvm"; "run"; "--cpus"; "2"; "--name"; "guest-a"]) as (_ & _ & H).
    + reflexivity.
    + reflexivity.
    + apply H. reflexivity.
Defined.

(** ** The list output *)

Lemma split_nl_line s t :
  no_newline s = true ->
  split_nl (s ++ String newline t)%string = s :: split_nl t.
Proof.
  induction s as [| c s IH]; intros Hs.
  - reflexivity.
  - simpl in Hs. apply andb_true_iff in Hs as [Hc Hs].
    apply negb_true_iff in Hc.
    change (split_nl (String c (s ++ String newline t)%string) = String c s :: split_nl t).
    cbn [split_nl]. rewrite Hc, (IH Hs). reflexivity.
Qed.

Lemma split_nl_last s : no_newline s = true -> split_nl s = [s].
Proof.
  induction s as [| c s IH]; intros Hs.
  - reflexivity.
  - simpl in Hs. apply andb_true_iff in Hs as [Hc Hs].
    apply negb_true_iff in Hc.
    cbn [split_nl]. rewrite Hc, (IH Hs). reflexivity.
Qed.

Lemma split_nl_join ls :
  ls <> [] ->
  Forall (fun l => no_newline l = true) ls ->
  split_nl (join nl ls) = ls.
Proof.
  induction ls as [| x rest IH]; intros Hne Hall; [contradiction |].
  apply Forall_cons in Hall as [Hx Hrest].
  destruct rest as [| y rest].
  - apply split_nl_last, Hx.
  - change (join nl (x :: y :: rest)) with (x ++ String newline (join nl (y :: rest)))%string.
    rewrite (split_nl_line _ _ Hx), IH; [reflexivity | discriminate | exact Hrest].
Qed.

Lemma slice_rows {A} (h1 h2 : A) data last :
  slice_2_m1 (h1 :: h2 :: data ++ [last]) = data.
Proof.
  unfold slice_2_m1. cbn [drop length].
  rewrite length_app. cbn [length].
  replace (S (S (length data + 1)) - 3) with (length data) by lia.
  apply take_app_length.
Qed.

Lemma for_each_outcome {A B} (body : A -> M B) (R : A -> B -> Prop) l :
  Forall (fun x => exists y, outcome (body x) = Ok y /\ R x y) l ->
  exists ys, outcome (for_each body l) = Ok ys /\ Forall2 R l ys.
Proof.
  induction l as [| x l IH]; intros Hall.
  - exists []. split; [reflexivity | constructor].
  - apply Forall_cons in Hall as [(y & Hy & HR) Hl].
    destruct (IH Hl) as (ys & Hys & HRs).
    exists (y :: ys). split; [| constructor; assumption].
    cbn [for_each]. rewrite outcome_bind, Hy, outcome_bind, Hys. reflexivity.
Qed.

Lemma list_row_outcome env d :
  row_ok env d ->
  exists inst, outcome (list_row env d) = Ok inst /\ describes env d inst.
Proof.
  intros (p & n & s & props & Hf & Hinfo).
  exists (<["state" := s]> (<["name" := n]> (<["pid" := p]> props))).
  unfold row_fields in Hf.
  destruct (split_ws d) as [| p' [| n' [| s' rest]]] eqn:Hsplit; try discriminate.
  injection Hf as -> -> ->.
  split.
  - unfold list_row. rewrite Hsplit. cbn. rewrite Hinfo. reflexivity.
  - exists p, n, s, props. unfold row_fields. rewrite Hsplit.
    repeat split; try assumption.
    + rewrite lookup_insert_ne, lookup_insert_ne by discriminate.
      apply lookup_insert_eq.
    + rewrite lookup_insert_ne by discriminate. apply lookup_insert_eq.
    + apply lookup_insert_eq.
    + intros k H1 H2 H3. rewrite !lookup_insert_ne by congruence. reflexivity.
Qed.

Lemma list_instances_outcome env self run rootfs out :
  unprivileged env self = false ->
  popen env (command_of self "list" (list_params run rootfs)) = Completed out "" ->
  outcome (list_instances env self run rootfs) =
  if String.eqb out "" then Ok []
  else if (2 <? length (split_nl out))%nat
       then outcome (for_each (list_row env) (slice_2_m1 (split_nl out)))
       else Ok [].
Proof.
  intros Hp Hrun. unfold list_instances. cbv zeta.
  rewrite outcome_bind, (execute_foreground _ _ _ _ Hp), Hrun. cbn [String.eqb].
  cbn [truthy]. destruct (String.eqb out ""); cbn [negb]; [reflexivity |].
  destruct (2 <? length (split_nl out))%nat; reflexivity.
Qed.

(** C3, as the method has it. Let the caller be allowed to run
    [lkvm list], and let the command complete with output [out] and
    nothing on standard error. If [out] is empty, [list_instances]
    returns the empty list. If [out] is two header lines, then the
    data lines [data], then one empty last line, and every data line
    has three fields and a pid whose details can be looked up,
    [list_instances] returns one record per data line, in order, whose
    [pid], [name] and [state] are the first three fields of that
    line. *)
Theorem list_instances_rows env self run rootfs out :
  unprivileged env self = false ->
  popen env (command_of self "list" (list_params run rootfs)) = Completed out "" ->
  (out = "" -> outcome (list_instances env self run rootfs) = Ok [])
  /\ (forall h1 h2 data,
        out = join nl (h1 :: h2 :: data ++ [""]) ->
        no_newline h1 = true ->
        no_newline h2 = true ->
        Forall (fun d => no_newline d = true) data ->
        Forall (row_ok env) data ->
        exists instances,
          outcome (list_instances env self run rootfs) = Ok instances
          /\ length instances = length data
          /\ Forall2 (describes env) data instances).
Proof.
  intros Hp Hrun. rewrite (list_instances_outcome _ _ _ _ _ Hp Hrun). split.
  - intros ->. reflexivity.
  - intros h1 h2 data -> Hh1 Hh2 Hdata Hrows.
    assert (Hsplit : split_nl (join nl (h1 :: h2 :: data ++ [""]))
                     = h1 :: h2 :: data ++ [""]).
    { apply split_nl_join; [discriminate |].
      repeat (apply Forall_cons; split; [assumption |]).
      apply Forall_app. split; [assumption | repeat constructor]. }
    destruct (String.eqb_spec (join nl (h1 :: h2 :: data ++ [""])) "") as [E | _].
    { rewrite E in Hsplit. discriminate. }
    rewrite Hsplit, slice_rows.
    replace (2 <? length (h1 :: h2 :: data ++ [""]))%nat with true
      by (symmetry; apply Nat.ltb_lt; cbn [length]; rewrite length_app; simpl; lia).
    destruct (for_each_outcome (list_row env) (describes env) data) as (ys & Hys & HR).
    { eapply Forall_impl; [exact Hrows |]. intros d Hd. apply list_row_outcome, Hd. }
    exists ys. split; [exact Hys |]. split; [| exact HR].
    symmetry. eapply Forall2_length, HR.
Qed.

Lemma list_instances_rows_witness :
  outcome (list_instances env_empty no_helper (VBool true) (VBool true)) = Ok []
  /\ exists instances,
       outcome (list_instances env_root no_helper (VBool true) (VBool true))
       = Ok instances
       /\ length instances = 1
       /\ Forall2 (describes env_root) [" 4242 guest-a running"] instances.
Proof.
  split.
  - destruct (list_instances_rows env_empty no_helper (VBool true) (VBool true) ""
                eq_refl eq_refl) as [H _].
    apply H. reflexivity.
  - destruct (list_instances_rows env_root no_helper (VBool true) (VBool true)
                sample_listing eq_refl eq_refl) as [_ H].
    apply (H "PID NAME STATE" "----------------" [" 4242 guest-a running"]).
    + reflexivity.
    + reflexivity.
    + reflexivity.
    + repeat constructor.
    + constructor; [| constructor].
      exists "4242", "guest-a", "running". eexists.
      split; reflexivity.
Defined.

(** C3 as stated fails when a row cannot be completed. The output has
    the two header lines, one data line and the empty last line; in
    the first case the process of the row is alive but was started
    with [--balloon], a flag without value, and the pairing of line
    61 reads past the end of its command line; in the second the row
    has only two fields, and [ins[2]] does not exist. Either way
    [list_instances] raises [IndexError] and returns no record. *)
Lemma list_instances_row_not_completed :
  popen env_odd_row
    (command_of no_helper "list" (list_params (VBool true) (VBool true)))
  = Completed (join nl ["PID NAME STATE"; "----------------";
                        " 4243 guest-b running"; ""]) ""
  /\ cmdline env_odd_row 4243
     = Some ["lkvm"; "run"; "--name"; "guest-b"; "--balloon"]
  /\ outcome (list_instances env_odd_row no_helper (VBool true) (VBool true))
     = Raise IndexError
  /\ popen env_short_row
       (command_of no_helper "list" (list_params (VBool true) (VBool true)))
     = Completed (join nl ["PID NAME STATE"; "----------------";
                           " 4242 guest-a"; ""]) ""
  /\ outcome (list_instances env_short_row no_helper (VBool true) (VBool true))
     = Raise IndexError.
Proof. repeat split; reflexivity. Qed.

(** * Further properties *)

(** ** The argument vector of [run] and [sandbox] *)

(** X1. [run] and [sandbox] build their vector in one fixed order: the
    three mandatory flags, then the optional flags from [--name] to
    [--hugetlbs], then [--kernel] and the quoted [--params], then
    [--initrd] and [--firmware], then [--network], then [--no-dhcp];
    the mandatory flags are there whatever their values are. *)
Theorem run_vector_layout c :
  run_params c = run_layout c /\ sandbox_params c = run_layout c.
Proof.
  split; [apply run_params_layout |].
  exact (eq_trans (sandbox_params_run c) (run_params_layout c)).
Qed.

(** ** Selectors *)

Lemma selector_some all name :
  truthy all || truthy name = true ->
  selector all name = Some (selected all name).
Proof.
  unfold selector, selected. destruct (truthy all); [reflexivity |].
  simpl. intros ->. reflexivity.
Qed.

(** X2. When [all] or [name] is given, [pause], [resume] and [stop]
    enter [_execute] once, in foreground mode, under their own
    subcommand; [all] wins over [name]: with a truthy [all] the
    arguments are [--all] alone, and [--name <name>] otherwise. *)
Theorem selector_all_wins env self all name :
  truthy all || truthy name = true ->
  (truthy all = true -> selected all name = [VStr "--all"])
  /\ (truthy all = false -> selected all name = [VStr "--name"; name])
  /\ (exists rest, trace (pause env self all name)
                   = Ev_execute "pause" (selected all name) false :: rest)
  /\ (exists rest, trace (resume env self all name)
                   = Ev_execute "resume" (selected all name) false :: rest)
  /\ (exists rest, trace (stop env self all name)
                   = Ev_execute "stop" (selected all name) false :: rest).
Proof.
  intros Hsel. unfold pause, resume, stop.
  rewrite (selector_some _ _ Hsel), !trace_then_ret.
  destruct (execute_trace env self "pause" (selected all name) false) as (r1 & H1 & _).
  destruct (execute_trace env self "resume" (selected all name) false) as (r2 & H2 & _).
  destruct (execute_trace env self "stop" (selected all name) false) as (r3 & H3 & _).
  unfold selected at 1 2.
  split; [intros ->; reflexivity |].
  split; [intros ->; reflexivity |].
  split; [eauto |]. split; eauto.
Qed.

Lemma selector_all_wins_witness :
  exists rest, trace (stop env_root no_helper (VBool true) (VStr "guest-a"))
               = Ev_execute "stop" [VStr "--all"] false :: rest.
Proof.
  destruct (selector_all_wins env_root no_helper (VBool true) (VStr "guest-a"))
    as (_ & _ & _ & _ & H).
  - reflexivity.
  - exact H.
Defined.

(** ** What the foreground methods return *)

Lemma outcome_then_ret env self cmd args background :
  outcome (do* _execute env self cmd args background in ret VNone)
  = match outcome (_execute env self cmd args background) with
    | Ok _ => Ok VNone
    | Raise e => Raise e
    end.
Proof. apply outcome_bind. Qed.

Lemma execute_completed env self cmd args out err :
  unprivileged env self = false ->
  popen env (command_of self cmd args) = Completed out err ->
  outcome (_execute env self cmd args false) = completed_as err (VStr out).
Proof.
  intros Hp Hrun. rewrite (execute_foreground _ _ _ _ Hp), Hrun. reflexivity.
Qed.

Lemma discard_completed env self cmd args out err :
  unprivileged env self = false ->
  popen env (command_of self cmd args) = Completed out err ->
  outcome (do* _execute env self cmd args false in ret VNone)
  = completed_as err VNone.
Proof.
  intros Hp Hrun. rewrite outcome_then_ret, (execute_completed _ _ _ _ _ _ Hp Hrun).
  unfold completed_as. destruct (String.eqb err ""); reflexivity.
Qed.

(** X3. Once the process of a foreground method has completed, the
    method raises [LKVMException] with the standard error text when
    that text is not empty; otherwise [pause], [resume], [stop] and
    [balloon] return [None], dropping the standard output, and [setup]
    returns the standard output. *)
Theorem foreground_methods_outcome env self all name amount mode params out err :
  unprivileged env self = false ->
  selector all name = Some params ->
  (popen env (command_of self "pause" params) = Completed out err ->
   outcome (pause env self all name) = completed_as err VNone)
  /\ (popen env (command_of self "resume" params) = Completed out err ->
      outcome (resume env self all name) = completed_as err VNone)
  /\ (popen env (command_of self "stop" params) = Completed out err ->
      outcome (stop env self all name) = completed_as err VNone)
  /\ (popen env (command_of self "balloon" (balloon_params name amount mode))
      = Completed out err ->
      outcome (balloon env self name amount mode) = completed_as err VNone)
  /\ (popen env (command_of self "setup" [VStr "--name"; name]) = Completed out err ->
      outcome (setup env self name) = completed_as err (VStr out)).
Proof.
  intros Hp Hsel. unfold pause, resume, stop, balloon, setup. rewrite Hsel.
  split; [| split; [| split; [| split]]]; intros Hrun.
  - apply (discard_completed _ _ _ _ _ _ Hp Hrun).
  - apply (discard_completed _ _ _ _ _ _ Hp Hrun).
  - apply (discard_completed _ _ _ _ _ _ Hp Hrun).
  - apply (discard_completed _ _ _ _ _ _ Hp Hrun).
  - apply (execute_completed _ _ _ _ _ _ Hp Hrun).
Qed.

Lemma foreground_methods_outcome_witness :
  outcome (pause env_root no_helper (VBool true) VNone) = Ok VNone
  /\ outcome (setup env_root no_helper (VStr "guest-a")) = Ok (VStr sample_listing)
  /\ outcome (stop env_failing no_helper (VBool true) VNone)
     = Raise (LKVMException "Error: no such instance").
Proof.
  split; [| split].
  - destruct (foreground_methods_outcome env_root no_helper (VBool true) VNone
                (VInt 0) VNone [VStr "--all"] sample_listing "" eq_refl eq_refl)
      as (H & _).
    exact (H eq_refl).
  - destruct (foreground_methods_outcome env_root no_helper (VBool true)
                (VStr "guest-a") (VInt 0) VNone [VStr "--all"] sample_listing ""
                eq_refl eq_refl)
      as (_ & _ & _ & _ & H).
    exact (H eq_refl).
  - destruct (foreground_methods_outcome env_failing no_helper (VBool true) VNone
                (VInt 0) VNone [VStr "--all"] "" "Error: no such instance"
                eq_refl eq_refl)
      as (_ & _ & H & _).
    exact (H eq_refl).
Defined.

(** ** Detached execution *)

Lemma command_of_cons self cmd args :
  exists x rest, command_of self cmd args = x :: rest.
Proof.
  unfold command_of, extend, append. destruct (truthy (_root_helper self)); simpl; eauto.
Qed.

Lemma execute_background env self cmd args :
  unprivileged env self = false ->
  _execute env self cmd args true
  = (match popen_shell env (shell_line self cmd args) with
     | Some d => Raise (OSError d)
     | None => Ok VNone
     end,
     [Ev_execute cmd args true; Ev_popen_shell (shell_line self cmd args)]).
Proof.
  intros Hp. unfold _execute, shell_line. rewrite Hp.
  destruct (command_of_cons self cmd args) as (x & rest & ->).
  cbn. destruct (popen_shell env _); reflexivity.
Qed.

(** X4. A caller that passes the privilege guard gets from [run] and
    from [sandbox] exactly one detached shell process, whose text is
    [nohup], the command line joined by single spaces, and the
    redirection of both outputs to [/dev/null]. Nothing the process
    does reaches the caller: the methods return [None], or raise the
    [OSError] of [Popen] when the shell itself cannot be created. *)
Theorem background_fire_and_forget env self c :
  unprivileged env self = false ->
  run env self c
  = (match popen_shell env (shell_line self "run" (run_params c)) with
     | Some d => Raise (OSError d)
     | None => Ok VNone
     end,
     [Ev_execute "run" (run_params c) true;
      Ev_popen_shell (shell_line self "run" (run_params c))])
  /\ sandbox env self c
     = (match popen_shell env (shell_line self "sandbox" (sandbox_params c)) with
        | Some d => Raise (OSError d)
        | None => Ok VNone
        end,
        [Ev_execute "sandbox" (sandbox_params c) true;
         Ev_popen_shell (shell_line self "sandbox" (sandbox_params c))]).
Proof.
  intros Hp. unfold run, sandbox. rewrite !(execute_background _ _ _ _ Hp).
  split.
  - destruct (popen_shell env _); reflexivity.
  - destruct (popen_shell env _); reflexivity.
Qed.

Lemma background_fire_and_forget_witness :
  snd (run env_failing with_sudo sample_cfg)
  = [Ev_execute "run" (run_params sample_cfg) true;
     Ev_popen_shell (shell_line with_sudo "run" (run_params sample_cfg))]
  /\ fst (run env_failing with_sudo sample_cfg) = Ok VNone.
Proof.
  destruct (background_fire_and_forget env_failing with_sudo sample_cfg eq_refl)
    as [H _].
  rewrite H. split; reflexivity.
Defined.

(** ** The privilege guard *)

Lemma spawns_execute env self cmd args background :
  spawns (_execute env self cmd args background) = passes env self.
Proof.
  unfold spawns, passes, _execute. destruct (unprivileged env self); [reflexivity |].
  destruct background; cbn.
  - destruct (popen_shell env _); reflexivity.
  - destruct (popen env _) as [d | d | out err]; try reflexivity.
    destruct (negb _); reflexivity.
Qed.

(** X5. [_execute] goes on to create a process exactly when [os] has
    no [geteuid], or the effective uid is 0, or a root helper is set;
    it then creates one process, and none otherwise. *)
Theorem guard_lets_through env self cmd args background :
  (unprivileged env self = false
   <-> geteuid env = None \/ geteuid env = Some 0%Z
       \/ truthy (_root_helper self) = true)
  /\ spawns (_execute env self cmd args background)
     = (if unprivileged env self then 0 else 1).
Proof.
  split; [| apply spawns_execute].
  unfold unprivileged. destruct (geteuid env) as [uid |].
  - destruct (Z.eqb_spec uid 0) as [-> | Hne]; simpl.
    + split; auto.
    + destruct (truthy (_root_helper self)); simpl; split.
      * intros _. right. right. reflexivity.
      * intros _. reflexivity.
      * intros H. discriminate.
      * intros [H | [H | H]]; [discriminate | | discriminate].
        injection H as ->. contradiction.
  - split; auto.
Qed.

(** X6. Setting a truthy root helper puts it in front of every command:
    the command line becomes the helper, [/usr/bin/lkvm], the
    subcommand and the arguments, each through [str], and a call
    creates that process whatever the effective uid is. A client as
    [__init__] leaves it has no helper in front. *)
Theorem root_helper_in_front env self h cmd args :
  truthy h = true ->
  root_helper (root_helper_setter self h) = h
  /\ command_of (root_helper_setter self h) cmd args
     = str h :: LKVM_PATH :: cmd :: map str args
  /\ trace (_execute env (root_helper_setter self h) cmd args false)
     = [Ev_execute cmd args false;
        Ev_popen (str h :: LKVM_PATH :: cmd :: map str args)]
  /\ command_of __init__ cmd args = LKVM_PATH :: cmd :: map str args.
Proof.
  intros Hh.
  assert (Hc : command_of (root_helper_setter self h) cmd args
               = str h :: LKVM_PATH :: cmd :: map str args).
  { unfold command_of, root_helper_setter, extend, append. cbn [_root_helper].
    rewrite Hh. reflexivity. }
  split; [reflexivity |]. split; [exact Hc |]. split; [| reflexivity].
  unfold _execute.
  assert (Hu : unprivileged env (root_helper_setter self h) = false).
  { unfold unprivileged, root_helper_setter. cbn [_root_helper]. rewrite Hh.
    destruct (geteuid env); [apply andb_false_r | reflexivity]. }
  rewrite Hu, Hc. cbn.
  destruct (popen env _) as [d | d | out err]; try reflexivity.
  destruct (negb _); reflexivity.
Qed.

Lemma root_helper_in_front_witness :
  command_of (root_helper_setter __init__ (VStr "sudo")) "stop" [VStr "--all"]
  = ["sudo"; "/usr/bin/lkvm"; "stop"; "--all"]
  /\ trace (_execute env_user (root_helper_setter __init__ (VStr "sudo"))
              "stop" [VStr "--all"] false)
     = [Ev_execute "stop" [VStr "--all"] false;
        Ev_popen ["sudo"; "/usr/bin/lkvm"; "stop"; "--all"]].
Proof.
  destruct (root_helper_in_front env_user __init__ (VStr "sudo") "stop"
              [VStr "--all"] eq_refl) as (_ & H1 & H2 & _).
  split; [exact H1 | exact H2].
Defined.

(** X7. A failure to start or to talk to the process does not become
    an [LKVMException]. When [Popen] raises [OSError], in either mode,
    that [OSError] reaches the caller; when [communicate] raises
    [OSError], the handler fails on its unbound name
    [ProcessExecutionError] with [NameError]. *)
Theorem execute_oserror env self cmd args d :
  unprivileged env self = false ->
  (popen env (command_of self cmd args) = SpawnError d ->
   outcome (_execute env self cmd args false) = Raise (OSError d))
  /\ (popen env (command_of self cmd args) = CommError d ->
      outcome (_execute env self cmd args false)
      = Raise (NameError "ProcessExecutionError"))
  /\ (popen_shell env (shell_line self cmd args) = Some d ->
      outcome (_execute env self cmd args true) = Raise (OSError d)).
Proof.
  intros Hp. rewrite (execute_foreground _ _ _ _ Hp), (execute_background _ _ _ _ Hp).
  split; [| split]; intros ->; reflexivity.
Qed.

Lemma execute_oserror_witness :
  outcome (_execute env_no_lkvm no_helper "list" [VStr "--run"] false)
  = Raise (OSError "No such file or directory")
  /\ outcome (_execute env_no_lkvm no_helper "run" [] true)
     = Raise (OSError "No such file or directory").
Proof.
  destruct (execute_oserror env_no_lkvm no_helper "list" [VStr "--run"]
              "No such file or directory" eq_refl) as (H1 & _ & _).
  destruct (execute_oserror env_no_lkvm no_helper "run" []
              "No such file or directory" eq_refl) as (_ & _ & H3).
  split; [exact (H1 eq_refl) | exact (H3 eq_refl)].
Defined.

(** ** Processes per call *)

Lemma trace_bind {A B} (m : M A) (k : A -> M B) :
  trace (bind m k)
  = trace m ++ match outcome m with
               | Ok a => trace (k a)
               | Raise _ => []
               end.
Proof.
  destruct m as [[a | e] t]; simpl; [| symmetry; apply app_nil_r].
  destruct (k a); reflexivity.
Qed.

Lemma trace_lift_bind {A B} (r : result A) (k : A -> M B) :
  (forall a, trace (k a) = []) -> trace (bind (lift r) k) = [].
Proof. intros Hk. rewrite trace_bind. destruct r; simpl; auto. Qed.

(** Turning a data line into a record touches nothing outside. *)
Lemma trace_list_row env d : trace (list_row env d) = [].
Proof.
  unfold list_row.
  repeat (apply trace_lift_bind; intros ?). reflexivity.
Qed.

Lemma trace_for_each {A B} (body : A -> M B) l :
  (forall x, trace (body x) = []) -> trace (for_each body l) = [].
Proof.
  intros Hbody. induction l as [| x l IH]; [reflexivity |].
  cbn [for_each]. rewrite trace_bind, Hbody. simpl.
  destruct (outcome (body x)); [| reflexivity].
  rewrite trace_bind, IH. simpl. destruct (outcome (for_each body l)); reflexivity.
Qed.

Lemma trace_list_instances env self run rootfs :
  trace (list_instances env self run rootfs)
  = trace (_execute env self "list" (list_params run rootfs) false).
Proof.
  unfold list_instances. cbv zeta. rewrite trace_bind.
  destruct (outcome (_execute env self "list" _ false)) as [[| b | n | out] | e];
    try apply app_nil_r.
  destruct (truthy (VStr out)); [| apply app_nil_r].
  destruct (2 <? _)%nat; [| apply app_nil_r].
  rewrite (trace_for_each _ _ (trace_list_row env)). apply app_nil_r.
Qed.

Lemma spawns_then_ret env self cmd args background :
  spawns (do* _execute env self cmd args background in ret VNone)
  = passes env self.
Proof.
  unfold spawns. rewrite trace_then_ret. apply spawns_execute.
Qed.

(** X8. No method creates more than one process per call. [run],
    [sandbox], [setup], [balloon] and [list_instances] create one
    exactly when the privilege guard lets the caller through; [pause],
    [resume] and [stop] moreover need a selector; [stat] creates
    none. *)
Theorem processes_per_call env self c all name amount mode run_ rootfs memory :
  spawns (run env self c) = passes env self
  /\ spawns (sandbox env self c) = passes env self
  /\ spawns (setup env self name) = passes env self
  /\ spawns (balloon env self name amount mode) = passes env self
  /\ spawns (list_instances env self run_ rootfs) = passes env self
  /\ spawns (pause env self all name)
     = (if truthy all || truthy name then passes env self else 0)
  /\ spawns (resume env self all name)
     = (if truthy all || truthy name then passes env self else 0)
  /\ spawns (stop env self all name)
     = (if truthy all || truthy name then passes env self else 0)
  /\ spawns (stat env self memory all name) = 0
  /\ passes env self <= 1.
Proof.
  assert (Hsel : forall cmd,
            spawns (match selector all name with
                    | Some params =>
                        do* _execute env self cmd params false in ret VNone
                    | None => ret VNone
                    end)
            = (if truthy all || truthy name then passes env self else 0)).
  { intros cmd. destruct (truthy all || truthy name) eqn:E.
    - rewrite (selector_some _ _ E). apply spawns_then_ret.
    - apply orb_false_iff in E as [Ha Hn].
      rewrite (selector_none _ _ Ha Hn). reflexivity. }
  repeat split.
  - apply spawns_then_ret.
  - apply spawns_then_ret.
  - apply spawns_execute.
  - apply spawns_then_ret.
  - unfold spawns. rewrite trace_list_instances. apply spawns_execute.
  - apply Hsel.
  - apply Hsel.
  - apply Hsel.
  - unfold passes. destruct (unprivileged env self); lia.
Qed.

Lemma execute_unprivileged env self cmd args background :
  unprivileged env self = true ->
  _execute env self cmd args background
  = (Ok VNone, [Ev_execute cmd args background]).
Proof. intros Hu. unfold _execute. rewrite Hu. reflexivity. Qed.

(** X9. For a caller whose effective uid is not 0 and whose client has
    no root helper, every method ends normally without doing anything:
    no process is created, the methods return [None] and
    [list_instances] returns the empty list. *)
Theorem unprivileged_client_inert env self uid c all name amount mode run_ rootfs :
  geteuid env = Some uid ->
  uid <> 0%Z ->
  truthy (_root_helper self) = false ->
  run env self c = (Ok VNone, [Ev_execute "run" (run_params c) true])
  /\ sandbox env self c
     = (Ok VNone, [Ev_execute "sandbox" (sandbox_params c) true])
  /\ setup env self name
     = (Ok VNone, [Ev_execute "setup" [VStr "--name"; name] false])
  /\ balloon env self name amount mode
     = (Ok VNone,
        [Ev_execute "balloon" (balloon_params name amount mode) false])
  /\ list_instances env self run_ rootfs
     = (Ok [], [Ev_execute "list" (list_params run_ rootfs) false])
  /\ (outcome (pause env self all name) = Ok VNone
      /\ spawns (pause env self all name) = 0)
  /\ (outcome (resume env self all name) = Ok VNone
      /\ spawns (resume env self all name) = 0)
  /\ (outcome (stop env self all name) = Ok VNone
      /\ spawns (stop env self all name) = 0).
Proof.
  intros Huid Hnz Hhelper.
  assert (Hu : unprivileged env self = true).
  { unfold unprivileged. rewrite Huid, Hhelper.
    apply Z.eqb_neq in Hnz. rewrite Hnz. reflexivity. }
  unfold run, sandbox, setup, balloon, list_instances, pause, resume, stop.
  cbv zeta. rewrite !(execute_unprivileged _ _ _ _ _ Hu).
  repeat (split; [reflexivity |]).
  destruct (selector all name); rewrite ?(execute_unprivileged _ _ _ _ _ Hu);
    repeat split.
Qed.

Lemma unprivileged_client_inert_witness :
  run env_user __init__ sample_cfg
  = (Ok VNone, [Ev_execute "run" (run_params sample_cfg) true])
  /\ list_instances env_user __init__ (VBool true) (VBool true)
     = (Ok [], [Ev_execute "list" [VStr "--run"; VStr "--rootfs"] false]).
Proof.
  destruct (unprivileged_client_inert env_user __init__ 1000%Z sample_cfg
              (VBool true) (VStr "guest-a") (VInt 64) (VStr "inflate")
              (VBool true) (VBool true))
    as (H1 & _ & _ & _ & H5 & _).
  - reflexivity.
  - discriminate.
  - reflexivity.
  - split; [exact H1 | exact H5].
Defined.

(** ** The detail lookup *)

Lemma pairs_props_spec args :
  forall acc,
    pairs_props acc args
    = if Nat.even (length args)
      then Ok (list_to_map (reverse (pairs_of args)) ∪ acc)
      else Raise IndexError.
Proof.
  induction args as [| x | x y l IH] using pair_ind; intros acc.
  - cbn. rewrite (left_id_L ∅ (∪)). reflexivity.
  - reflexivity.
  - cbn [pairs_props pairs_of length Nat.even]. rewrite IH.
    destruct (Nat.even (length l)); [| reflexivity].
    f_equal. rewrite reverse_cons, list_to_map_app. cbn [list_to_map foldr].
    rewrite <- (assoc_L (∪)). f_equal. cbn [fst snd].
    rewrite insert_empty. apply insert_union_singleton_l.
Qed.

Lemma pairs_of_middle pre k v post :
  Nat.even (length pre) = true ->
  pairs_of (pre ++ k :: v :: post)
  = pairs_of pre ++ (drop2 k, v) :: pairs_of post.
Proof.
  induction pre as [| x | x y l IH] using pair_ind; intros Heven.
  - reflexivity.
  - discriminate.
  - cbn [app pairs_of]. rewrite IH by exact Heven. reflexivity.
Qed.

(** X10. For a pid whose process exists and whose command line has an
    even number of tokens after the first two, the lookup returns the
    mapping of the (flag without its first two characters, value)
    pairs in which a later pair replaces an earlier one with the same
    key: a pair whose key does not come again later is found under
    that key. *)
Theorem props_last_wins env pid n cl :
  int_of_pid pid = Ok n ->
  cmdline env n = Some cl ->
  Nat.even (length (drop 2 cl)) = true ->
  _get_instance_info env pid
  = Ok (list_to_map (reverse (pairs_of (drop 2 cl))))
  /\ forall pre k v post,
       drop 2 cl = pre ++ k :: v :: post ->
       Nat.even (length pre) = true ->
       drop2 k ∉ (pairs_of post).*1 ->
       exists props,
         _get_instance_info env pid = Ok props /\ props !! drop2 k = Some v.
Proof.
  intros Hpid Hcl Heven.
  assert (H : _get_instance_info env pid
              = Ok (list_to_map (reverse (pairs_of (drop 2 cl))))).
  { unfold _get_instance_info. rewrite Hpid, Hcl. cbv zeta.
    rewrite props_of_pairs, pairs_props_spec, Heven.
    rewrite (right_id_L ∅ (∪)). reflexivity. }
  split; [exact H |].
  intros pre k v post Hargs Hpre Hfresh. eexists. split; [exact H |].
  rewrite Hargs, (pairs_of_middle _ _ _ _ Hpre), reverse_app, reverse_cons.
  rewrite <- app_assoc, list_to_map_app.
  rewrite lookup_union_r.
  - cbn. apply lookup_insert_eq.
  - apply not_elem_of_list_to_map_1. rewrite fmap_reverse, elem_of_reverse.
    exact Hfresh.
Qed.

Lemma props_last_wins_witness :
  exists props,
    _get_instance_info env_root (PidStr "4242") = Ok props
    /\ props !! "name" = Some "guest-a".
Proof.
  destruct (props_last_wins env_root (PidStr "4242") 4242
              ["lkvm"; "run"; "--cpus"; "2"; "--name"; "guest-a"]
              eq_refl eq_refl eq_refl) as [_ H].
  apply (H ["--cpus"; "2"] "--name" "guest-a" []).
  - reflexivity.
  - reflexivity.
  - cbn. apply not_elem_of_nil.
Defined.

Lemma lookup_raises env pid e :
  _get_instance_info env pid = Raise e -> lookup_error e.
Proof.
  unfold _get_instance_info, lookup_error.
  destruct (int_of_pid pid) as [n | e'] eqn:Hpid.
  - destruct (cmdline env n) as [cl |].
    + cbv zeta. rewrite props_of_pairs.
      pose proof (pairs_props_parity (drop 2 cl) ∅) as H.
      destruct (pairs_props ∅ (drop 2 cl)) as [props | e']; [discriminate |].
      destruct H as [_ ->]. intros H. injection H as <-. auto.
    + cbn. intros H. injection H as <-. auto.
  - intros H. injection H as <-. left.
    destruct pid as [s | n]; [| discriminate].
    cbn in Hpid. destruct (py_int s); [discriminate |]. congruence.
Qed.

(** X11. The lookup ends in one of four ways: it returns a mapping, or
    it raises [ValueError] (the pid is not an integer), [NameError] for
    [NoSuchProcess] (the process table has no such pid) or [IndexError]
    (odd number of tokens). It never raises [LKVMException]. *)
Theorem get_instance_info_outcomes env pid :
  (exists props, _get_instance_info env pid = Ok props)
  \/ (exists e, _get_instance_info env pid = Raise e /\ lookup_error e).
Proof.
  destruct (_get_instance_info env pid) as [props | e] eqn:E.
  - left. eauto.
  - right. exists e. split; [reflexivity |]. apply (lookup_raises _ _ _ E).
Qed.

(** ** Rows that cannot be parsed *)

Lemma list_row_raises env d e :
  outcome (list_row env d) = Raise e -> lookup_error e.
Proof.
  unfold list_row, lookup_error.
  destruct (split_ws d) as [| p [| n [| s rest]]]; cbn.
  - intros H. injection H as <-. auto.
  - destruct (_get_instance_info env (PidStr p)) eqn:E; cbn.
    + intros H. injection H as <-. auto.
    + intros H. injection H as <-. apply (lookup_raises _ _ _ E).
  - destruct (_get_instance_info env (PidStr p)) eqn:E; cbn.
    + intros H. injection H as <-. auto.
    + intros H. injection H as <-. apply (lookup_raises _ _ _ E).
  - destruct (_get_instance_info env (PidStr p)) eqn:E; cbn.
    + discriminate.
    + intros H. injection H as <-. apply (lookup_raises _ _ _ E).
Qed.

Lemma for_each_raises {A B} (body : A -> M B) (P : exn -> Prop) l e :
  (forall x e, outcome (body x) = Raise e -> P e) ->
  outcome (for_each body l) = Raise e -> P e.
Proof.
  intros Hbody. induction l as [| x l IH]; [discriminate |].
  cbn [for_each]. rewrite outcome_bind.
  destruct (outcome (body x)) eqn:Hx.
  - rewrite outcome_bind. destruct (outcome (for_each body l)).
    + discriminate.
    + intros H. injection H as <-. apply IH. reflexivity.
  - intros H. injection H as <-. apply (Hbody x), Hx.
Qed.

Lemma list_row_error env d e :
  row_error env d e -> outcome (list_row env d) = Raise e.
Proof.
  intros [Hs | p rest e' Hs Hl | p rest props Hs Hlen Hl];
    unfold list_row; rewrite Hs; cbn.
  - reflexivity.
  - rewrite Hl. reflexivity.
  - rewrite Hl. destruct rest as [| n [| s rest]]; cbn.
    + reflexivity.
    + reflexivity.
    + simpl in Hlen. lia.
Qed.

Lemma for_each_first_failure {A B} (body : A -> M B) good bad rest e :
  Forall (fun x => exists y, outcome (body x) = Ok y) good ->
  outcome (body bad) = Raise e ->
  outcome (for_each body (good ++ bad :: rest)) = Raise e.
Proof.
  intros Hgood Hbad. induction Hgood as [| x good [y Hy] _ IH].
  - cbn [app for_each]. rewrite outcome_bind, Hbad. reflexivity.
  - cbn [app for_each]. rewrite outcome_bind, Hy, outcome_bind, IH. reflexivity.
Qed.

(** The output of [lkvm list] seen as lines: what is parsed is the
    lines between the first two and the last one. *)
Lemma list_instances_lines env self run rootfs h1 h2 data last :
  unprivileged env self = false ->
  popen env (command_of self "list" (list_params run rootfs))
  = Completed (join nl (h1 :: h2 :: data ++ [last])) "" ->
  no_newline h1 = true ->
  no_newline h2 = true ->
  Forall (fun d => no_newline d = true) data ->
  no_newline last = true ->
  outcome (list_instances env self run rootfs)
  = outcome (for_each (list_row env) data).
Proof.
  intros Hp Hrun Hh1 Hh2 Hdata Hlast.
  rewrite (list_instances_outcome _ _ _ _ _ Hp Hrun).
  assert (Hsplit : split_nl (join nl (h1 :: h2 :: data ++ [last]))
                   = h1 :: h2 :: data ++ [last]).
  { apply split_nl_join; [discriminate |].
    repeat (apply Forall_cons; split; [assumption |]).
    apply Forall_app. split; [assumption | repeat constructor; assumption]. }
  destruct (String.eqb_spec (join nl (h1 :: h2 :: data ++ [last])) "") as [E | _].
  { rewrite E in Hsplit. discriminate. }
  rewrite Hsplit, slice_rows.
  replace (2 <? length (h1 :: h2 :: data ++ [last]))%nat with true
    by (symmetry; apply Nat.ltb_lt; cbn [length]; rewrite length_app; simpl; lia).
  reflexivity.
Qed.

(** X12. [list_instances] never looks at the last line of the output:
    the records are those of the lines between the two header lines
    and the last line, whatever the last line is. An output that does
    not end in a newline loses its last row. *)
Theorem list_instances_drops_last_line env self run rootfs h1 h2 data last :
  unprivileged env self = false ->
  popen env (command_of self "list" (list_params run rootfs))
  = Completed (join nl (h1 :: h2 :: data ++ [last])) "" ->
  no_newline h1 = true ->
  no_newline h2 = true ->
  Forall (fun d => no_newline d = true) data ->
  no_newline last = true ->
  Forall (row_ok env) data ->
  exists instances,
    outcome (list_instances env self run rootfs) = Ok instances
    /\ Forall2 (describes env) data instances.
Proof.
  intros Hp Hrun Hh1 Hh2 Hdata Hlast Hrows.
  rewrite (list_instances_lines _ _ _ _ _ _ _ _ Hp Hrun Hh1 Hh2 Hdata Hlast).
  apply for_each_outcome.
  eapply Forall_impl; [exact Hrows |]. intros d Hd. apply list_row_outcome, Hd.
Qed.

Lemma list_instances_drops_last_line_witness :
  exists instances,
    outcome (list_instances env_no_final_newline no_helper (VBool true) (VBool true))
    = Ok instances
    /\ Forall2 (describes env_no_final_newline) [" 4242 guest-a running"] instances.
Proof.
  apply (list_instances_drops_last_line env_no_final_newline no_helper
           (VBool true) (VBool true) "PID NAME STATE" "----------------"
           [" 4242 guest-a running"] " 4243 guest-b running");
    try reflexivity.
  - repeat constructor.
  - constructor; [| constructor].
    exists "4242", "guest-a", "running". eexists. split; reflexivity.
Defined.

(** X13. One row that cannot be parsed makes the whole call fail: when
    the rows before it are fine and it is blank, or its lookup fails,
    or it has fewer than three fields, [list_instances] raises the
    exception of that row and returns no record at all. *)
Theorem list_instances_first_bad_row
    env self run rootfs h1 h2 good bad rest last e :
  unprivileged env self = false ->
  popen env (command_of self "list" (list_params run rootfs))
  = Completed (join nl (h1 :: h2 :: (good ++ bad :: rest) ++ [last])) "" ->
  no_newline h1 = true ->
  no_newline h2 = true ->
  Forall (fun d => no_newline d = true) (good ++ bad :: rest) ->
  no_newline last = true ->
  Forall (row_ok env) good ->
  row_error env bad e ->
  outcome (list_instances env self run rootfs) = Raise e.
Proof.
  intros Hp Hrun Hh1 Hh2 Hdata Hlast Hgood Hbad.
  rewrite (list_instances_lines _ _ _ _ _ _ _ _ Hp Hrun Hh1 Hh2 Hdata Hlast).
  apply for_each_first_failure.
  - eapply Forall_impl; [exact Hgood |]. intros d Hd.
    destruct (list_row_outcome env d Hd) as (inst & Hinst & _). eauto.
  - apply list_row_error, Hbad.
Qed.

Lemma list_instances_first_bad_row_witness :
  outcome (list_instances env_blank_row no_helper (VBool true) (VBool true))
  = Raise IndexError.
Proof.
  apply (list_instances_first_bad_row env_blank_row no_helper
           (VBool true) (VBool true) "PID NAME STATE" "----------------"
           [" 4242 guest-a running"] "   " [] "");
    try reflexivity.
  - repeat constructor.
  - constructor; [| constructor].
    exists "4242", "guest-a", "running". eexists. split; reflexivity.
  - apply row_blank. reflexivity.
Defined.

(** X14. The only [LKVMException] [list_instances] can raise is the
    one that carries the standard error text of the list command; no
    failure of a row or of a lookup is reported that way. *)
Theorem list_instances_lkvm_exception env self run rootfs msg :
  outcome (list_instances env self run rootfs) = Raise (LKVMException msg) ->
  unprivileged env self = false
  /\ msg <> ""
  /\ exists out,
       popen env (command_of self "list" (list_params run rootfs))
       = Completed out msg.
Proof.
  unfold list_instances. cbv zeta. rewrite outcome_bind.
  destruct (unprivileged env self) eqn:Hp.
  { unfold _execute. rewrite Hp. cbn. discriminate. }
  rewrite (execute_foreground _ _ _ _ Hp).
  destruct (popen env _) as [d | d | out err]; try discriminate.
  destruct (String.eqb_spec err "") as [-> | Hne].
  - cbn [truthy]. destruct (negb (String.eqb out "")).
    + destruct (2 <? _)%nat; [| discriminate].
      intros H. apply (for_each_raises _ lookup_error) in H.
      * destruct H as [H | [H | H]]; discriminate.
      * intros x e. apply list_row_raises.
    + discriminate.
  - intros H. injection H as <-. eauto.
Qed.

Lemma list_instances_lkvm_exception_witness :
  unprivileged env_failing no_helper = false
  /\ "Error: no such instance" <> ""
  /\ exists out,
       popen env_failing
         (command_of no_helper "list" (list_params (VBool true) (VBool true)))
       = Completed out "Error: no such instance".
Proof.
  apply (list_instances_lkvm_exception env_failing no_helper (VBool true) (VBool true)).
  reflexivity.
Defined.

(** ** Short outputs *)

Lemma length_split_nl s : length (split_nl s) = S (count_nl s).
Proof.
  induction s as [| c s IH]; [reflexivity |].
  cbn [split_nl count_nl]. destruct (Ascii.eqb c newline).
  - cbn [length]. rewrite IH. reflexivity.
  - destruct (split_nl s) as [| w ws]; [discriminate |].
    cbn [length] in *. exact IH.
Qed.

(** X15. An output with fewer than two newlines has no row for
    [list_instances]: whatever its text is, even a single line that
    reads like a row, the call returns the empty list. *)
Theorem list_instances_short_output env self run rootfs out :
  unprivileged env self = false ->
  popen env (command_of self "list" (list_params run rootfs)) = Completed out "" ->
  count_nl out < 2 ->
  outcome (list_instances env self run rootfs) = Ok [].
Proof.
  intros Hp Hrun Hshort. rewrite (list_instances_outcome _ _ _ _ _ Hp Hrun).
  destruct (String.eqb out ""); [reflexivity |].
  replace (2 <? length (split_nl out))%nat with false; [reflexivity |].
  symmetry. apply Nat.ltb_ge. rewrite length_split_nl. lia.
Qed.

Lemma list_instances_short_output_witness :
  outcome (list_instances env_header_only no_helper (VBool true) (VBool true))
  = Ok [].
Proof.
  apply (list_instances_short_output env_header_only no_helper (VBool true)
           (VBool true) (join nl ["PID NAME STATE"; "----------------"])).
  - reflexivity.
  - reflexivity.
  - simpl. lia.
Defined.
